(** * Chiral Network: the block explorer and the all-transactions inspector

    A shallow embedding of the script blocks of the two Svelte components
    [BlockExplorer.svelte] and the all-transactions page, and the
    properties of their fetch, pagination and mount logic.

    Conventions of the embedding.
    - A JavaScript string is the list of its UTF-16 code units.
    - Integral JavaScript numbers (offsets, heights, timestamps) are
      integers of [Z]; the two agree on the safe-integer range.
    - Component variables ([let] bindings of the script) form a record;
      a function of the script is a computation in a state monad that also
      logs the platform calls it makes ([invoke], [setTimeout], ...).
    - An [async] function is split at its [await]: the part that runs
      synchronously inside the call, and the part that runs when the awaited
      promise settles.  The second part reads the component variables as
      they are at that later moment, as a JavaScript closure does. *)

From Stdlib Require Import ZArith NArith List String Ascii Bool Lia.
Import ListNotations.

Set Implicit Arguments.

(* ================================================================== *)
(** ** JavaScript values *)
(* ================================================================== *)

Module Js.

(** Strings: sequences of UTF-16 code units. *)
Definition jsstring : Type := list N.

(** A source literal made of ASCII characters only. *)
Definition lit (s : string) : jsstring :=
  map N_of_ascii (list_ascii_of_string s).

(** The double-quote character, U+0022. *)
Definition dquote : jsstring := [34%N].

(** ECMAScript WhiteSpace and LineTerminator code points, the characters
    [String.prototype.trim] strips.  All of them lie in the Basic
    Multilingual Plane, so each is one code unit. *)
Definition is_white_space (c : N) : bool :=
  ((9 <=? c) && (c <=? 13)          (* TAB, LF, VT, FF, CR *)
   || (c =? 32)                     (* SPACE *)
   || (c =? 160)                    (* NO-BREAK SPACE *)
   || (c =? 5760)                   (* U+1680 *)
   || ((8192 <=? c) && (c <=? 8202))  (* U+2000 .. U+200A *)
   || (c =? 8232) || (c =? 8233)    (* U+2028, U+2029 *)
   || (c =? 8239)                   (* U+202F *)
   || (c =? 8287)                   (* U+205F *)
   || (c =? 12288)                  (* U+3000 *)
   || (c =? 65279))%N.              (* U+FEFF *)

Fixpoint trimStart (s : jsstring) : jsstring :=
  match s with
  | [] => []
  | c :: r => if is_white_space c then trimStart r else s
  end.

Definition trimEnd (s : jsstring) : jsstring := rev (trimStart (rev s)).

(** [s.trim()] *)
Definition trim (s : jsstring) : jsstring := trimEnd (trimStart s).

(** Truthiness of a string: only the empty string is falsy. *)
Definition truthy (s : jsstring) : bool :=
  match s with [] => false | _ :: _ => true end.

(** A string made of white space only (the empty string included). *)
Definition blank (s : jsstring) : bool := forallb is_white_space s.

(** Values of type [any] that cross the bridge as JSON. *)
Unset Elimination Schemes.
Inductive json : Type :=
| JNull
| JBool (b : bool)
| JNum (z : Z)
| JStr (s : jsstring)
| JArr (l : list json)
| JObj (fields : list (string * json)).
Set Elimination Schemes.

(** What a promise is rejected with: the string the backend reports, or
    an [Error] object with its message. *)
Inductive reason : Type :=
| ReasonString (s : jsstring)
| ReasonError (message : jsstring).

(** Template-literal conversion [`${e}`].  A string converts to itself; an
    [Error] converts by [Error.prototype.toString]: its name alone when the
    message is empty, otherwise the name, a colon, a space and the
    message. *)
Definition reason_to_string (e : reason) : jsstring :=
  match e with
  | ReasonString s => s
  | ReasonError [] => lit "Error"
  | ReasonError (c :: m) => lit "Error: " ++ c :: m
  end.

(** How a promise settles. *)
Inductive outcome (A : Type) : Type :=
| Resolved (a : A)
| Rejected (e : reason).
Arguments Rejected {A} e.

(** A promise, seen from the moment it is created: [Some (t, o)] settles
    with [o] after [t] milliseconds, [None] stays pending for ever. *)
Definition promise (A : Type) : Type := option (N * outcome A).

(** [new Promise((_, reject) => setTimeout(() => reject(new Error(msg)), ms))] *)
Definition reject_after (A : Type) (ms : N) (msg : jsstring) : promise A :=
  Some (ms, Rejected (ReasonError msg)).

(** [Promise.all([p, q])]: fulfilled once both are, rejected as soon as
    one of them is. *)
Definition all2 (A B : Type) (p : promise A) (q : promise B)
  : promise (A * B) :=
  match p, q with
  | Some (t1, Resolved a), Some (t2, Resolved b) =>
      Some (N.max t1 t2, Resolved (a, b))
  | Some (t1, Rejected e1), Some (t2, Rejected e2) =>
      if (t1 <=? t2)%N then Some (t1, Rejected e1) else Some (t2, Rejected e2)
  | Some (t1, Rejected e1), _ => Some (t1, Rejected e1)
  | _, Some (t2, Rejected e2) => Some (t2, Rejected e2)
  | _, _ => None
  end.

(** [Promise.race([p, q])]: settles as the first of the two to settle;
    two promises settling in the same turn are taken in array order. *)
Definition race (A : Type) (p q : promise A) : promise A :=
  match p, q with
  | Some (t1, o1), Some (t2, o2) =>
      if (t1 <=? t2)%N then Some (t1, o1) else Some (t2, o2)
  | Some x, None => Some x
  | None, q' => q'
  end.

(** The promise settles, and does so within [ms] milliseconds. *)
Definition settles_within (A : Type) (ms : N) (p : promise A) : Prop :=
  exists t o, p = Some (t, o) /\ (t <= ms)%N.

End Js.

Import Js.

(* ================================================================== *)
(** ** The platform: bridge, timers, notifications *)
(* ================================================================== *)

Module Platform.

(** The identifier [setInterval] returns. *)
Definition handle : Type := N.

(** The functions the scripts hand to timers. *)
Inductive callback : Type :=
| CallFunction (name : string)          (* a function of the script *)
| RejectWithError (message : jsstring). (* [() => reject(new Error(message))] *)

(** Calls a script makes to the world outside the component. *)
Inductive effect : Type :=
| Invoke (cmd : string) (args : list (string * json))
| SetTimeout (cb : callback) (ms : N)
| SetInterval (cb : callback) (ms : N) (h : handle)
| ClearInterval (h : handle)
| ToastInfo (msg : jsstring)
| ToastError (msg : option jsstring)
| ConsoleError (label : jsstring) (e : reason).

Definition is_invoke (e : effect) : bool :=
  match e with Invoke _ _ => true | _ => false end.

(** The remote calls among the logged effects. *)
Definition remote_calls (fx : list effect) : list effect := filter is_invoke fx.

(** Computations over the component variables [S] that log their
    effects. *)
Definition M (S A : Type) : Type := S -> A * S * list effect.

Definition ret (S A : Type) (a : A) : M S A := fun s => (a, s, []).
Arguments ret {S A} a.

Definition bind (S A B : Type) (m : M S A) (k : A -> M S B) : M S B :=
  fun s =>
    let '(a, s1, fx1) := m s in
    let '(b, s2, fx2) := k a s1 in
    (b, s2, fx1 ++ fx2).

(** Read a component variable. *)
Definition read (S A : Type) (var : S -> A) : M S A := fun s => (var s, s, []).

(** Assign a component variable, given its setter. *)
Definition assign (S A : Type) (set : A -> S -> S) (v : A) : M S unit :=
  fun s => (tt, set v s, []).

Definition emit (S : Type) (e : effect) : M S unit := fun s => (tt, s, [e]).
Arguments emit {S} e.

Definition state_of (S A : Type) (r : A * S * list effect) : S := snd (fst r).
Definition effects_of (S A : Type) (r : A * S * list effect) : list effect := snd r.
Definition value_of (S A : Type) (r : A * S * list effect) : A := fst (fst r).

(** A remote call through the bridge: the command name and arguments sent,
    and the promise [invoke] returns, typed by the cast at the call site. *)
Record call (A : Type) : Type := {
  cmd : string;
  args : list (string * json);
  response : promise A
}.

(** [invoke(cmd, args)] *)
Definition invoke (S A : Type) (c : call A) : M S (promise A) :=
  fun s => (response c, s, [Invoke (cmd c) (args c)]).
Arguments invoke {S A} c.

(** [new Promise((_, reject) => setTimeout(() => reject(new Error(msg)), ms))] *)
Definition timeout_promise (S A : Type) (ms : N) (msg : jsstring)
  : M S (promise A) :=
  fun s => (reject_after A ms msg, s, [SetTimeout (RejectWithError msg) ms]).
Arguments timeout_promise {S A} ms msg.

(** The run of an [async] function left alone: it returned or resumed and
    finished ([Completed]), or it waits for ever on a promise that never
    settles ([Waiting]). *)
Inductive run (S : Type) : Type :=
| Completed (s : S) (fx : list effect)
| Waiting (s : S) (fx : list effect).

Definition run_state (S : Type) (r : run S) : S :=
  match r with Completed s _ => s | Waiting s _ => s end.

Definition run_effects (S : Type) (r : run S) : list effect :=
  match r with Completed _ fx => fx | Waiting _ fx => fx end.

(** Run an [async] function with nothing else interleaved: [start] up to
    the [await] ([None] when it returns before), then [resume] at the time
    the awaited promise settles.  [clock] is [Date.now()] at the call. *)
Definition uninterrupted (S T : Type)
    (start : M S (option (promise T)))
    (resume : Z -> outcome T -> M S unit)
    (clock : Z) (s : S) : run S :=
  let '(awaited, s1, fx1) := start s in
  match awaited with
  | None => Completed s1 fx1
  | Some None => Waiting s1 fx1
  | Some (Some (t, o)) =>
      let '(_, s2, fx2) := resume (clock + Z.of_N t)%Z o s1 in
      Completed s2 (fx1 ++ fx2)
  end.

(** The interval timers the platform keeps: handle, callback, period. *)
Definition timers : Type := list (handle * callback * N).

Definition install (e : effect) (ts : timers) : timers :=
  match e with
  | SetInterval cb ms h => ts ++ [(h, cb, ms)]
  | ClearInterval h => filter (fun x => negb (N.eqb (fst (fst x)) h)) ts
  | _ => ts
  end.

(** The timers left after a log of effects. *)
Definition timers_after (fx : list effect) (ts : timers) : timers :=
  fold_left (fun acc e => install e acc) fx ts.

End Platform.

Import Platform.

Declare Scope script_scope.
Delimit Scope script_scope with script.
Notation "x <- m ;; k" := (bind m (fun x => k))
  (at level 61, m at next level, right associativity) : script_scope.
Notation "m ;; k" := (bind m (fun _ => k))
  (at level 61, right associativity) : script_scope.

(* ================================================================== *)
(** ** BlockExplorer.svelte *)
(* ================================================================== *)

Module BlockDetail.
Record t : Type := {
  number : Z;
  hash : jsstring;
  miner : jsstring;
  timestamp : Z;
  transaction_count : Z;
  transactions : list json
}.
End BlockDetail.

Module TransactionDetail.
Record t : Type := {
  hash : jsstring;
  from : jsstring;
  to : jsstring;
  value : jsstring;
  gas : jsstring;
  gasPrice : jsstring
}.
End TransactionDetail.

(** The backend commands the two panels call, with the result types their
    call sites cast to.  The backend is outside the repository: each field
    is the promise the bridge returns for that command. *)
Record Backend : Type := {
  get_latest_blocks : Z -> Z -> promise (list BlockDetail.t);
  get_current_block : promise Z;
  get_account_balance : jsstring -> promise jsstring;
  get_all_transactions : promise (list json)
}.

Module BlockExplorer.

(** The component variables. *)
Record State : Type := {
  blocks : list BlockDetail.t;
  error : option jsstring;
  offset : Z;
  currentHeight : Z;
  selectedBlock : option BlockDetail.t;
  transactionHash : jsstring;
  transactionResult : option TransactionDetail.t;
  addressBalance : jsstring;
  balanceResult : option jsstring;
  balanceError : option jsstring;
  isLoading : bool;
  isTauri : bool
}.

(** [const limit = 10] *)
Definition limit : Z := 10.

(** The variables as the script initialises them. *)
Definition initial : State := {|
  blocks := [];
  error := None;
  offset := 0;
  currentHeight := 0;
  selectedBlock := None;
  transactionHash := [];
  transactionResult := None;
  addressBalance := [];
  balanceResult := None;
  balanceError := None;
  isLoading := false;
  isTauri := false
|}.

Definition set_blocks (v : list BlockDetail.t) (s : State) : State :=
  {| blocks := v; error := error s; offset := offset s;
     currentHeight := currentHeight s; selectedBlock := selectedBlock s;
     transactionHash := transactionHash s;
     transactionResult := transactionResult s;
     addressBalance := addressBalance s; balanceResult := balanceResult s;
     balanceError := balanceError s; isLoading := isLoading s;
     isTauri := isTauri s |}.

Definition set_error (v : option jsstring) (s : State) : State :=
  {| blocks := blocks s; error := v; offset := offset s;
     currentHeight := currentHeight s; selectedBlock := selectedBlock s;
     transactionHash := transactionHash s;
     transactionResult := transactionResult s;
     addressBalance := addressBalance s; balanceResult := balanceResult s;
     balanceError := balanceError s; isLoading := isLoading s;
     isTauri := isTauri s |}.

Definition set_offset (v : Z) (s : State) : State :=
  {| blocks := blocks s; error := error s; offset := v;
     currentHeight := currentHeight s; selectedBlock := selectedBlock s;
     transactionHash := transactionHash s;
     transactionResult := transactionResult s;
     addressBalance := addressBalance s; balanceResult := balanceResult s;
     balanceError := balanceError s; isLoading := isLoading s;
     isTauri := isTauri s |}.

Definition set_currentHeight (v : Z) (s : State) : State :=
  {| blocks := blocks s; error := error s; offset := offset s;
     currentHeight := v; selectedBlock := selectedBlock s;
     transactionHash := transactionHash s;
     transactionResult := transactionResult s;
     addressBalance := addressBalance s; balanceResult := balanceResult s;
     balanceError := balanceError s; isLoading := isLoading s;
     isTauri := isTauri s |}.

Definition set_selectedBlock (v : option BlockDetail.t) (s : State) : State :=
  {| blocks := blocks s; error := error s; offset := offset s;
     currentHeight := currentHeight s; selectedBlock := v;
     transactionHash := transactionHash s;
     transactionResult := transactionResult s;
     addressBalance := addressBalance s; balanceResult := balanceResult s;
     balanceError := balanceError s; isLoading := isLoading s;
     isTauri := isTauri s |}.

Definition set_transactionHash (v : jsstring) (s : State) : State :=
  {| blocks := blocks s; error := error s; offset := offset s;
     currentHeight := currentHeight s; selectedBlock := selectedBlock s;
     transactionHash := v;
     transactionResult := transactionResult s;
     addressBalance := addressBalance s; balanceResult := balanceResult s;
     balanceError := balanceError s; isLoading := isLoading s;
     isTauri := isTauri s |}.

Definition set_transactionResult (v : option TransactionDetail.t) (s : State)
  : State :=
  {| blocks := blocks s; error := error s; offset := offset s;
     currentHeight := currentHeight s; selectedBlock := selectedBlock s;
     transactionHash := transactionHash s;
     transactionResult := v;
     addressBalance := addressBalance s; balanceResult := balanceResult s;
     balanceError := balanceError s; isLoading := isLoading s;
     isTauri := isTauri s |}.

Definition set_addressBalance (v : jsstring) (s : State) : State :=
  {| blocks := blocks s; error := error s; offset := offset s;
     currentHeight := currentHeight s; selectedBlock := selectedBlock s;
     transactionHash := transactionHash s;
     transactionResult := transactionResult s;
     addressBalance := v; balanceResult := balanceResult s;
     balanceError := balanceError s; isLoading := isLoading s;
     isTauri := isTauri s |}.

Definition set_balanceResult (v : option jsstring) (s : State) : State :=
  {| blocks := blocks s; error := error s; offset := offset s;
     currentHeight := currentHeight s; selectedBlock := selectedBlock s;
     transactionHash := transactionHash s;
     transactionResult := transactionResult s;
     addressBalance := addressBalance s; balanceResult := v;
     balanceError := balanceError s; isLoading := isLoading s;
     isTauri := isTauri s |}.

Definition set_balanceError (v : option jsstring) (s : State) : State :=
  {| blocks := blocks s; error := error s; offset := offset s;
     currentHeight := currentHeight s; selectedBlock := selectedBlock s;
     transactionHash := transactionHash s;
     transactionResult := transactionResult s;
     addressBalance := addressBalance s; balanceResult := balanceResult s;
     balanceError := v; isLoading := isLoading s;
     isTauri := isTauri s |}.

Definition set_isLoading (v : bool) (s : State) : State :=
  {| blocks := blocks s; error := error s; offset := offset s;
     currentHeight := currentHeight s; selectedBlock := selectedBlock s;
     transactionHash := transactionHash s;
     transactionResult := transactionResult s;
     addressBalance := addressBalance s; balanceResult := balanceResult s;
     balanceError := balanceError s; isLoading := v;
     isTauri := isTauri s |}.

Definition set_isTauri (v : bool) (s : State) : State :=
  {| blocks := blocks s; error := error s; offset := offset s;
     currentHeight := currentHeight s; selectedBlock := selectedBlock s;
     transactionHash := transactionHash s;
     transactionResult := transactionResult s;
     addressBalance := addressBalance s; balanceResult := balanceResult s;
     balanceError := balanceError s; isLoading := isLoading s;
     isTauri := v |}.

(** The globals of [window] the mount hook looks at; [None] is
    [undefined]. *)
Record Window : Type := {
  __TAURI__ : option json;
  __TAURI_INTERNALS__ : option json;
  __TAURI_METADATA__ : option json
}.

(** [x !== undefined] *)
Definition defined (A : Type) (x : option A) : bool :=
  match x with Some _ => true | None => false end.

Local Open Scope string_scope.
Local Open Scope list_scope.
Local Open Scope Z_scope.
Local Open Scope script_scope.

Definition msg_requires_tauri : jsstring :=
  lit "Block explorer requires Tauri desktop app. Please run "
  ++ dquote ++ lit "npm run tauri dev" ++ dquote
  ++ lit " instead of "
  ++ dquote ++ lit "npm run dev" ++ dquote ++ lit ".".

Definition msg_fetch_failed : jsstring :=
  lit "Failed to fetch blockchain data. Please start the Geth node on the <a href="
  ++ dquote ++ lit "/network" ++ dquote
  ++ lit " class=" ++ dquote ++ lit "text-blue-300 hover:underline" ++ dquote
  ++ lit ">Network page</a>.".

Definition msg_transaction_requires_tauri : jsstring :=
  lit "Transaction lookup requires Tauri desktop app.".

Definition msg_balance_requires_tauri : jsstring :=
  lit "Balance check requires Tauri desktop app.".

Definition zero_hash : jsstring :=
  lit "0x0000000000000000000000000000000000000000000000000000000000000000".

Definition zero_address : jsstring :=
  lit "0x0000000000000000000000000000000000000000".

(** The block shown when nothing could be fetched; [now] is [Date.now()]. *)
Definition placeholder_block (now : Z) : BlockDetail.t := {|
  BlockDetail.number := 0;
  BlockDetail.hash := zero_hash;
  BlockDetail.miner := zero_address;
  BlockDetail.timestamp := now / 1000;        (* Math.floor(Date.now() / 1000) *)
  BlockDetail.transaction_count := 0;
  BlockDetail.transactions := []
|}.

(** The record [fetchTransaction] makes up for a hash. *)
Definition placeholder_transaction (h : jsstring) : TransactionDetail.t := {|
  TransactionDetail.hash := h;
  TransactionDetail.from := zero_address;
  TransactionDetail.to := zero_address;
  TransactionDetail.value := lit "0";
  TransactionDetail.gas := lit "21000";
  TransactionDetail.gasPrice := lit "20000000000"
|}.

(** [e as string]: the cast is unchecked; an [Error] object would be shown
    through its string conversion. *)
Definition as_string (e : reason) : jsstring := reason_to_string e.

Section Script.

Variable backend : Backend.

(** [invoke('get_latest_blocks', { limit, offset }) as Promise<BlockDetail[]>] *)
Definition invoke_get_latest_blocks (limit offset : Z)
  : call (list BlockDetail.t) := {|
  cmd := "get_latest_blocks";
  args := [("limit", JNum limit); ("offset", JNum offset)];
  response := get_latest_blocks backend limit offset
|}.

(** [invoke('get_current_block') as Promise<number>] *)
Definition invoke_get_current_block : call Z := {|
  cmd := "get_current_block";
  args := [];
  response := get_current_block backend
|}.

(** [invoke('get_account_balance', { address: addressBalance }) as string] *)
Definition invoke_get_account_balance (address : jsstring) : call jsstring := {|
  cmd := "get_account_balance";
  args := [("address", JStr address)];
  response := get_account_balance backend address
|}.

(** [fetchBlocks], up to its [await]: the promise it then waits on, or
    [None] when it returned at the Tauri check. *)
Definition fetchBlocks_start
  : M State (option (promise (list BlockDetail.t * Z))) :=
  tauri <- read isTauri ;;
  if negb tauri then
    assign set_error (Some msg_requires_tauri) ;;
    assign set_isLoading false ;;
    ret None
  else
    assign set_isLoading true ;;
    assign set_error None ;;
    timeoutPromise <- timeout_promise 10000 (lit "Request timeout") ;;
    off <- read offset ;;
    latest <- invoke (invoke_get_latest_blocks limit off) ;;
    height <- invoke invoke_get_current_block ;;
    ret (Some (race (all2 latest height) timeoutPromise)).

(** Names for what [fetchBlocks_start] produces inside Tauri: the promise it
    waits on (the two calls together, raced against the ten-second
    rejection) and the platform calls it logs, in order. *)
Definition fetchBlocks_awaited (s : State) : promise (list BlockDetail.t * Z) :=
  race (all2 (get_latest_blocks backend 10 (offset s)) (get_current_block backend))
       (reject_after _ 10000 (lit "Request timeout")).

Definition fetchBlocks_effects (s : State) : list effect :=
  [ SetTimeout (RejectWithError (lit "Request timeout")) 10000;
    Invoke "get_latest_blocks" [("limit", JNum 10); ("offset", JNum (offset s))];
    Invoke "get_current_block" [] ].

(** [fetchBlocks], from the moment the awaited race settles: the rest of the
    [try] block or the [catch] block, then [finally].  [now] is
    [Date.now()] at that moment. *)
Definition fetchBlocks_resume (now : Z) (o : outcome (list BlockDetail.t * Z))
  : M State unit :=
  match o with
  | Resolved (fetchedBlocks, height) =>
      assign set_blocks fetchedBlocks ;;
      assign set_currentHeight height
  | Rejected _ =>
      assign set_error (Some msg_fetch_failed) ;;
      bs <- read blocks ;;
      if Z.of_nat (List.length bs) =? 0 then
        assign set_blocks [placeholder_block now] ;;
        assign set_currentHeight 0
      else ret tt
  end ;;
  assign set_isLoading false.

(** [fetchTransaction]: it has no [await], so it runs in one piece.  Its
    [catch] block cannot be reached: nothing in the [try] block throws. *)
Definition fetchTransaction : M State unit :=
  h <- read transactionHash ;;
  if negb (truthy (trim h)) then ret tt
  else
    tauri <- read isTauri ;;
    if negb tauri then
      assign set_balanceError (Some msg_transaction_requires_tauri)
    else
      assign set_balanceError None ;;
      assign set_transactionResult (Some (placeholder_transaction h)).

(** [fetchBalance], up to its [await]. *)
Definition fetchBalance_start : M State (option (promise jsstring)) :=
  a <- read addressBalance ;;
  if negb (truthy (trim a)) then ret None
  else
    tauri <- read isTauri ;;
    if negb tauri then
      assign set_balanceError (Some msg_balance_requires_tauri) ;;
      ret None
    else
      assign set_balanceError None ;;
      balance <- invoke (invoke_get_account_balance a) ;;
      ret (Some balance).

(** [fetchBalance], once the call has settled. *)
Definition fetchBalance_resume (o : outcome jsstring) : M State unit :=
  match o with
  | Resolved balance => assign set_balanceResult (Some (balance ++ lit " ETH"))
  | Rejected e => assign set_balanceError (Some (as_string e))
  end.

(** [nextPage] and [prevPage] call [fetchBlocks] and drop its promise, so
    they return when [fetchBlocks] reaches its [await]. *)
Definition nextPage : M State (option (promise (list BlockDetail.t * Z))) :=
  off <- read offset ;;
  assign set_offset (off + limit) ;;
  fetchBlocks_start.

Definition prevPage : M State (option (promise (list BlockDetail.t * Z))) :=
  off <- read offset ;;
  assign set_offset (Z.max 0 (off - limit)) ;;
  fetchBlocks_start.

Definition selectBlock (block : BlockDetail.t) : M State unit :=
  assign set_selectedBlock (Some block).

Definition closeBlockDetails : M State unit :=
  assign set_selectedBlock None.

(** The Tauri check of the mount hook; [None] is [typeof window ===
    'undefined']. *)
Definition detect_tauri (window : option Window) : bool :=
  match window with
  | None => false
  | Some w =>
      defined (__TAURI__ w) || defined (__TAURI_INTERNALS__ w)
      || defined (__TAURI_METADATA__ w)
  end.

(** What the mount hook leaves behind: the promise the initial
    [fetchBlocks] waits on, and the function it returns for unmount. *)
Record Mounted : Type := {
  initial_fetch : option (promise (list BlockDetail.t * Z));
  cleanup : option (M State unit)
}.

(** The callback given to [onMount]; [h] is what [setInterval] returns. *)
Definition onMount (window : option Window) (h : handle) : M State Mounted :=
  assign set_isTauri (detect_tauri window) ;;
  tauri <- read isTauri ;;
  if tauri then
    p <- fetchBlocks_start ;;
    emit (SetInterval (CallFunction "fetchBlocks") 10000 h) ;;
    ret {| initial_fetch := p; cleanup := Some (emit (ClearInterval h)) |}
  else
    assign set_error (Some msg_requires_tauri) ;;
    ret {| initial_fetch := None; cleanup := None |}.

(** Unmount runs the function the mount hook returned, if any. *)
Definition onDestroy (m : Mounted) : M State unit :=
  match cleanup m with
  | Some f => f
  | None => ret tt
  end.

(** [fetchBlocks], [fetchBalance], [nextPage] and [prevPage] run to the end
    with nothing interleaved. *)
Definition fetchBlocks (clock : Z) : State -> run State :=
  uninterrupted fetchBlocks_start fetchBlocks_resume clock.

Definition fetchBalance (clock : Z) : State -> run State :=
  uninterrupted fetchBalance_start (fun _ => fetchBalance_resume) clock.

Definition nextPage_run (clock : Z) : State -> run State :=
  uninterrupted nextPage fetchBlocks_resume clock.

Definition prevPage_run (clock : Z) : State -> run State :=
  uninterrupted prevPage fetchBlocks_resume clock.

(** What can happen to a mounted component: the user acts, a timer fires,
    an awaited promise settles. *)
Inductive event : Type :=
| Mount (window : option Window) (h : handle)
| IntervalFired
| BlocksSettled (now : Z) (o : outcome (list BlockDetail.t * Z))
| ClickNextPage
| ClickPrevPage
| InputTransactionHash (v : jsstring)    (* bind:value={transactionHash} *)
| InputAddressBalance (v : jsstring)     (* bind:value={addressBalance} *)
| ClickFetchTransaction
| ClickFetchBalance
| BalanceSettled (o : outcome jsstring)
| ClickBlock (block : BlockDetail.t)
| ClickClose.

(** The script code an event runs. *)
Definition dispatch (ev : event) : M State unit :=
  match ev with
  | Mount window h => _ <- onMount window h ;; ret tt
  | IntervalFired => _ <- fetchBlocks_start ;; ret tt
  | BlocksSettled now o => fetchBlocks_resume now o
  | ClickNextPage => _ <- nextPage ;; ret tt
  | ClickPrevPage => _ <- prevPage ;; ret tt
  | InputTransactionHash v => assign set_transactionHash v
  | InputAddressBalance v => assign set_addressBalance v
  | ClickFetchTransaction => fetchTransaction
  | ClickFetchBalance => _ <- fetchBalance_start ;; ret tt
  | BalanceSettled o => fetchBalance_resume o
  | ClickBlock block => selectBlock block
  | ClickClose => closeBlockDetails
  end.

Fixpoint dispatch_all (evs : list event) : M State unit :=
  match evs with
  | [] => ret tt
  | ev :: rest => dispatch ev ;; dispatch_all rest
  end.

End Script.

End BlockExplorer.

(* ================================================================== *)
(** ** The all-transactions page *)
(* ================================================================== *)

Module AllTransactions.

Record State : Type := {
  chainId : json;
  transactions : list json;
  isLoading : bool;
  error : option jsstring
}.

Definition initial : State := {|
  chainId := JNum 777;
  transactions := [];
  isLoading := false;
  error := None
|}.

Definition set_transactions (v : list json) (s : State) : State :=
  {| chainId := chainId s; transactions := v; isLoading := isLoading s;
     error := error s |}.

Definition set_isLoading (v : bool) (s : State) : State :=
  {| chainId := chainId s; transactions := transactions s; isLoading := v;
     error := error s |}.

Definition set_error (v : option jsstring) (s : State) : State :=
  {| chainId := chainId s; transactions := transactions s;
     isLoading := isLoading s; error := v |}.

Local Open Scope string_scope.
Local Open Scope list_scope.
Local Open Scope Z_scope.
Local Open Scope script_scope.

Section Script.

Variable backend : Backend.

(** [invoke('get_all_transactions')] *)
Definition invoke_get_all_transactions : call (list json) := {|
  cmd := "get_all_transactions";
  args := [];
  response := get_all_transactions backend
|}.

(** [fetchAllTransactions], up to its [await]. *)
Definition fetchAllTransactions_start : M State (option (promise (list json))) :=
  assign set_isLoading true ;;
  assign set_error None ;;
  result <- invoke invoke_get_all_transactions ;;
  ret (Some result).

(** [fetchAllTransactions], once the call has settled. *)
Definition fetchAllTransactions_resume (o : outcome (list json)) : M State unit :=
  match o with
  | Resolved result =>
      assign set_transactions result ;;
      txs <- read transactions ;;
      if Z.of_nat (List.length txs) =? 0 then
        emit (ToastInfo (lit "No transactions found on the blockchain."))
      else ret tt
  | Rejected e =>
      emit (ConsoleError (lit "Failed to fetch all transactions:") e) ;;
      assign set_error
        (Some (lit "Failed to fetch transactions: " ++ reason_to_string e)) ;;
      err <- read error ;;
      emit (ToastError err)
  end ;;
  assign set_isLoading false.

Definition fetchAllTransactions (clock : Z) : State -> run State :=
  uninterrupted fetchAllTransactions_start
    (fun _ => fetchAllTransactions_resume) clock.

(** Mounting the page.  The script imports [onMount] and never calls it,
    so no callback runs at mount: the variables keep their initial
    values and nothing is sent.  [fetchAllTransactions] is bound to the
    button ([on:click]) only. *)
Definition mount : M State unit := ret tt.

Inductive event : Type :=
| Mount
| ClickFetchAll
| AllSettled (o : outcome (list json)).

Definition dispatch (ev : event) : M State unit :=
  match ev with
  | Mount => mount
  | ClickFetchAll => _ <- fetchAllTransactions_start ;; ret tt
  | AllSettled o => fetchAllTransactions_resume o
  end.

End Script.

End AllTransactions.

(* ================================================================== *)
(** ** The backend interface, as the properties below refer to it *)
(* ================================================================== *)

Module Interface.

Local Open Scope string_scope.
Local Open Scope list_scope.
Local Open Scope Z_scope.

(** An effect is either no remote call at all, or one of the four commands
    with the arguments of its signature. *)
Definition interface_call (e : effect) : Prop :=
  match e with
  | Invoke c a =>
      (c = "get_latest_blocks"
       /\ exists l o, a = [("limit", JNum l); ("offset", JNum o)])
      \/ (c = "get_current_block" /\ a = [])
      \/ (c = "get_account_balance"
          /\ exists address, a = [("address", JStr address)])
      \/ (c = "get_all_transactions" /\ a = [])
  | _ => True
  end.

(** Every [get_latest_blocks] call in the log carries the limit 10 and the
    offset [off]. *)
Definition passes_limit_and_offset (off : Z) (fx : list effect) : Prop :=
  forall a,
    In (Invoke "get_latest_blocks" a) fx ->
    a = [("limit", JNum 10); ("offset", JNum off)].

(** A non-negative multiple of ten. *)
Definition page_aligned (off : Z) : Prop := 0 <= off /\ off mod 10 = 0.

End Interface.

(* ================================================================== *)
(** ** Sample runs *)
(* ================================================================== *)

Module Samples.

Local Open Scope Z_scope.

Definition block (n : Z) : BlockDetail.t := {|
  BlockDetail.number := n;
  BlockDetail.hash := lit "0xabc";
  BlockDetail.miner := lit "0xdef";
  BlockDetail.timestamp := 1700000000;
  BlockDetail.transaction_count := 0;
  BlockDetail.transactions := []
|}.

(** A backend that answers every command after [t] milliseconds. *)
Definition answering (t : N) : Backend := {|
  get_latest_blocks := fun _ _ => Some (t, Resolved [block 7; block 6]);
  get_current_block := Some (t, Resolved 7);
  get_account_balance := fun _ => Some (t, Resolved (lit "1.5"));
  get_all_transactions := Some (t, Resolved [JObj []])
|}.

(** A backend that rejects every command after [t] milliseconds. *)
Definition rejecting (t : N) : Backend := {|
  get_latest_blocks := fun _ _ => Some (t, Rejected (ReasonString (lit "no node")));
  get_current_block := Some (t, Rejected (ReasonString (lit "no node")));
  get_account_balance := fun _ => Some (t, Rejected (ReasonString (lit "no node")));
  get_all_transactions := Some (t, Rejected (ReasonString (lit "no node")))
|}.

(** A backend that never answers. *)
Definition silent : Backend := {|
  get_latest_blocks := fun _ _ => None;
  get_current_block := None;
  get_account_balance := fun _ => None;
  get_all_transactions := None
|}.

(** A window with the Tauri internals present, and a plain browser one. *)
Definition tauri_window : BlockExplorer.Window := {|
  BlockExplorer.__TAURI__ := None;
  BlockExplorer.__TAURI_INTERNALS__ := Some (JObj []);
  BlockExplorer.__TAURI_METADATA__ := None
|}.

Definition browser_window : BlockExplorer.Window := {|
  BlockExplorer.__TAURI__ := None;
  BlockExplorer.__TAURI_INTERNALS__ := None;
  BlockExplorer.__TAURI_METADATA__ := None
|}.

(** The block explorer once mounted inside Tauri, nothing fetched yet. *)
Definition in_tauri : BlockExplorer.State :=
  BlockExplorer.set_isTauri true BlockExplorer.initial.

End Samples.

(* ================================================================== *)
(** ** The templates: what the markup computes from the variables *)
(* ================================================================== *)

Module ExplorerView.

Import BlockExplorer.

Local Open Scope Z_scope.

(** [disabled={!transactionHash.trim()}] on the Lookup button. *)
Definition lookup_disabled (s : State) : bool :=
  negb (truthy (trim (transactionHash s))).

(** [disabled={!addressBalance.trim()}] on the Check button. *)
Definition check_disabled (s : State) : bool :=
  negb (truthy (trim (addressBalance s))).

(** [disabled={offset === 0 || isLoading}] on the Previous button. *)
Definition prev_disabled (s : State) : bool :=
  (offset s =? 0) || isLoading s.

(** [disabled={isLoading}] on the Next button. *)
Definition next_disabled (s : State) : bool := isLoading s.

(** [{#if selectedBlock}]: the details modal. *)
Definition shows_modal (s : State) : bool := defined (selectedBlock s).

(** Events sorted by the part of the page they belong to: the two lookup
    boxes, or the block table with its pagination, timer and modal. *)
Definition is_lookup_event (ev : event) : bool :=
  match ev with
  | InputTransactionHash _ | InputAddressBalance _
  | ClickFetchTransaction | ClickFetchBalance | BalanceSettled _ => true
  | _ => false
  end.

(** The two events that write [selectedBlock]. *)
Definition touches_selection (ev : event) : bool :=
  match ev with
  | ClickBlock _ | ClickClose => true
  | _ => false
  end.

(** A mount that finds the Tauri globals. *)
Definition mounts_in_tauri (ev : event) : bool :=
  match ev with
  | Mount window _ => detect_tauri window
  | _ => false
  end.

(** A fetch settled with an empty page of blocks. *)
Definition empty_page_reply (ev : event) : bool :=
  match ev with
  | BlocksSettled _ (Resolved ([], _)) => true
  | _ => false
  end.

End ExplorerView.

Module InspectorView.

Import AllTransactions.

Local Open Scope Z_scope.

(** [disabled={isLoading}] on the Fetch button. *)
Definition fetch_disabled (s : State) : bool := isLoading s.

(** [{#if transactions.length > 0}]: the list of transactions. *)
Definition shows_list (s : State) : bool :=
  Z.of_nat (List.length (transactions s)) >? 0.

(** [{:else if !isLoading}]: the note that there is nothing to display. *)
Definition shows_empty_note (s : State) : bool :=
  negb (shows_list s) && negb (isLoading s).

(** The page at run time: its variables and the number of
    [get_all_transactions] calls not yet settled. *)
Record Runtime : Type := {
  vars : State;
  in_flight : nat
}.

Definition started : Runtime := {| vars := initial; in_flight := 0 |}.

Section Steps.

Variable backend : Backend.

(** One event on the running page; [None] when it cannot happen: a click
    on the disabled button, a reply with no call in flight. *)
Definition ui_step (ev : event) (r : Runtime) : option Runtime :=
  match ev with
  | Mount =>
      Some {| vars := state_of (dispatch backend ev (vars r));
              in_flight := in_flight r |}
  | ClickFetchAll =>
      if fetch_disabled (vars r) then None
      else Some {| vars := state_of (dispatch backend ev (vars r));
                   in_flight := S (in_flight r) |}
  | AllSettled _ =>
      match in_flight r with
      | O => None
      | S n => Some {| vars := state_of (dispatch backend ev (vars r));
                       in_flight := n |}
      end
  end.

Fixpoint ui_run (evs : list event) (r : Runtime) : option Runtime :=
  match evs with
  | [] => Some r
  | ev :: rest =>
      match ui_step ev r with
      | Some r' => ui_run rest r'
      | None => None
      end
  end.

End Steps.

End InspectorView.

(** Promises against a deadline. *)
Module Deadline.


End Deadline.

(* ================================================================== *)
(** ** Proof steps shared by the sections below *)
(* ================================================================== *)

(** Case analysis on the branches a script takes. *)
Ltac split_ifs :=
  repeat match goal with
         | |- context [if ?b then _ else _] => destruct b eqn:?
         | |- context [match ?o with Resolved _ => _ | Rejected _ => _ end] =>
             destruct o as [[? ?]|?] || destruct o
         end.

Ltac project_fields :=
  cbn [BlockExplorer.isTauri BlockExplorer.offset BlockExplorer.blocks
       BlockExplorer.transactionHash BlockExplorer.addressBalance
       BlockExplorer.set_isTauri BlockExplorer.set_offset
       BlockExplorer.set_error BlockExplorer.set_isLoading
       BlockExplorer.set_blocks BlockExplorer.set_currentHeight
       BlockExplorer.set_balanceError BlockExplorer.set_balanceResult
       BlockExplorer.set_transactionResult BlockExplorer.set_transactionHash
       BlockExplorer.set_addressBalance BlockExplorer.set_selectedBlock
       AllTransactions.transactions AllTransactions.error
       AllTransactions.set_transactions AllTransactions.set_error
       AllTransactions.set_isLoading
       fst snd app].

Ltac unfold_scripts :=
  unfold BlockExplorer.dispatch, BlockExplorer.onMount, BlockExplorer.nextPage,
    BlockExplorer.prevPage, BlockExplorer.fetchBlocks_start,
    BlockExplorer.fetchBlocks_resume, BlockExplorer.fetchTransaction,
    BlockExplorer.fetchBalance_start, BlockExplorer.fetchBalance_resume,
    BlockExplorer.selectBlock, BlockExplorer.closeBlockDetails,
    AllTransactions.dispatch, AllTransactions.mount,
    AllTransactions.fetchAllTransactions_start,
    AllTransactions.fetchAllTransactions_resume,
    bind, read, assign, ret, emit, invoke, timeout_promise,
    state_of, effects_of, value_of.

(** Run the code of an event on an opened record of variables, one goal per
    event and per path through its code. *)
Ltac run_event ev s :=
  destruct ev; destruct s; unfold_scripts;
  project_fields; split_ifs; project_fields.

(** Close a goal on membership in an explicit log of effects. *)
Ltac in_log Hin :=
  simpl in Hin;
  repeat match goal with
         | H : _ \/ _ |- _ => destruct H as [H|H]
         | H : False |- _ => contradiction
         | H : _ = Invoke _ _ |- _ =>
             (discriminate H) || (injection H as <-; reflexivity)
         end.

(* ================================================================== *)
(** ** White space and [trim] *)
(* ================================================================== *)

Section Trim.

Lemma trimStart_blank (s : jsstring) : blank s = true -> trimStart s = [].
Proof.
  induction s as [|c r IH]; simpl; [reflexivity|].
  intros H. apply andb_prop in H. destruct H as [Hc Hr].
  rewrite Hc. auto.
Qed.

Lemma trimStart_nil_blank (s : jsstring) : trimStart s = [] -> blank s = true.
Proof.
  induction s as [|c r IH]; simpl; [reflexivity|].
  destruct (is_white_space c); simpl; [exact IH | discriminate].
Qed.

(** What [trimStart] leaves is empty or starts with a character that is
    not white space. *)
Lemma trimStart_head (s : jsstring) :
  match trimStart s with
  | [] => True
  | c :: _ => is_white_space c = false
  end.
Proof.
  induction s as [|c r IH]; simpl; [exact I|].
  destruct (is_white_space c) eqn:E; [exact IH | exact E].
Qed.

Lemma blank_rev (s : jsstring) : blank (rev s) = blank s.
Proof.
  unfold blank. induction s as [|c r IH]; simpl; [reflexivity|].
  rewrite forallb_app, IH. simpl. rewrite andb_true_r. apply andb_comm.
Qed.

(** [s.trim()] is the empty string exactly when [s] is white space only. *)
Lemma trim_nil_iff (s : jsstring) : trim s = [] <-> blank s = true.
Proof.
  unfold trim, trimEnd. split.
  - intros H.
    assert (H1 : trimStart (rev (trimStart s)) = []).
    { apply (f_equal (@rev N)) in H. rewrite rev_involutive in H. exact H. }
    apply trimStart_nil_blank in H1. rewrite blank_rev in H1.
    pose proof (trimStart_head s) as Hh.
    destruct (trimStart s) as [|c r] eqn:E.
    + apply trimStart_nil_blank. exact E.
    + simpl in H1. rewrite Hh in H1. discriminate.
  - intros H. rewrite (trimStart_blank s H). reflexivity.
Qed.

(** The guard [!s.trim()] of the two lookups. *)
Lemma guard_blank (s : jsstring) : negb (truthy (trim s)) = blank s.
Proof.
  destruct (blank s) eqn:B.
  - apply trim_nil_iff in B. rewrite B. reflexivity.
  - destruct (trim s) as [|c r] eqn:E; [|reflexivity].
    apply trim_nil_iff in E. congruence.
Qed.

End Trim.

(* ================================================================== *)
(** ** Promises *)
(* ================================================================== *)

Section Promises.

Variable A : Type.

(** Racing anything against a rejection due after [ms] settles within
    [ms]. *)
Lemma race_reject_after (p : promise A) (ms : N) (msg : jsstring) :
  settles_within ms (race p (reject_after A ms msg)).
Proof.
  unfold settles_within, race, reject_after.
  destruct p as [[t o]|].
  - destruct (t <=? ms)%N eqn:E.
    + exists t, o. split; [reflexivity|]. apply N.leb_le. exact E.
    + eexists _, _. split; [reflexivity|]. apply N.le_refl.
  - eexists _, _. split; [reflexivity|]. apply N.le_refl.
Qed.

(** A promise settles with a value or with an error, nothing else. *)
Lemma outcome_cases (o : outcome A) :
  (exists a, o = Resolved a) \/ (exists e, o = Rejected e).
Proof. destruct o as [a|e]; [left|right]; eexists; reflexivity. Qed.

End Promises.

(* ================================================================== *)
(** ** The block explorer, function by function *)
(* ================================================================== *)

Section BlockExplorerEquations.

Import BlockExplorer.

Local Open Scope string_scope.
Local Open Scope list_scope.
Local Open Scope Z_scope.

Variable backend : Backend.

(** Decide a goal about a script function by opening the record of
    component variables and computing. *)
Ltac by_fields s :=
  destruct s; simpl in *; subst; try reflexivity.

Lemma fetchBlocks_start_browser (s : State) :
  isTauri s = false ->
  fetchBlocks_start backend s =
    (None, set_isLoading false (set_error (Some msg_requires_tauri) s), []).
Proof. intros H. by_fields s. Qed.

Lemma fetchBlocks_start_tauri (s : State) :
  isTauri s = true ->
  fetchBlocks_start backend s =
    (Some (fetchBlocks_awaited backend s),
     set_error None (set_isLoading true s),
     fetchBlocks_effects s).
Proof. intros H. by_fields s. Qed.

Lemma fetchBlocks_resume_resolved (now : Z) (bs : list BlockDetail.t) (h : Z)
    (s : State) :
  fetchBlocks_resume now (Resolved (bs, h)) s =
    (tt, set_isLoading false (set_currentHeight h (set_blocks bs s)), []).
Proof. reflexivity. Qed.

Lemma fetchBlocks_resume_rejected_stale (now : Z) (e : reason) (s : State) :
  blocks s <> [] ->
  fetchBlocks_resume now (Rejected e) s =
    (tt, set_isLoading false (set_error (Some msg_fetch_failed) s), []).
Proof.
  intros H. destruct s as [bs ? ? ? ? ? ? ? ? ? ? ?]. simpl in H.
  destruct bs as [|b r]; [contradiction|reflexivity].
Qed.

Lemma fetchBlocks_resume_rejected_empty (now : Z) (e : reason) (s : State) :
  blocks s = [] ->
  fetchBlocks_resume now (Rejected e) s =
    (tt,
     set_isLoading false
       (set_currentHeight 0
          (set_blocks [placeholder_block now]
             (set_error (Some msg_fetch_failed) s))),
     []).
Proof. intros H. by_fields s. Qed.

Lemma fetchTransaction_blank (s : State) :
  blank (transactionHash s) = true ->
  fetchTransaction s = (tt, s, []).
Proof.
  intros H. unfold fetchTransaction, bind, read.
  rewrite guard_blank, H. destruct s; reflexivity.
Qed.

Lemma fetchTransaction_browser (s : State) :
  blank (transactionHash s) = false ->
  isTauri s = false ->
  fetchTransaction s =
    (tt, set_balanceError (Some msg_transaction_requires_tauri) s, []).
Proof.
  intros H T. unfold fetchTransaction, bind, read.
  rewrite guard_blank, H. by_fields s.
Qed.

Lemma fetchTransaction_tauri (s : State) :
  blank (transactionHash s) = false ->
  isTauri s = true ->
  fetchTransaction s =
    (tt,
     set_transactionResult (Some (placeholder_transaction (transactionHash s)))
       (set_balanceError None s),
     []).
Proof.
  intros H T. unfold fetchTransaction, bind, read.
  rewrite guard_blank, H. by_fields s.
Qed.

Lemma fetchBalance_start_blank (s : State) :
  blank (addressBalance s) = true ->
  fetchBalance_start backend s = (None, s, []).
Proof.
  intros H. unfold fetchBalance_start, bind, read.
  rewrite guard_blank, H. destruct s; reflexivity.
Qed.

Lemma fetchBalance_start_browser (s : State) :
  blank (addressBalance s) = false ->
  isTauri s = false ->
  fetchBalance_start backend s =
    (None, set_balanceError (Some msg_balance_requires_tauri) s, []).
Proof.
  intros H T. unfold fetchBalance_start, bind, read.
  rewrite guard_blank, H. by_fields s.
Qed.

Lemma fetchBalance_start_tauri (s : State) :
  blank (addressBalance s) = false ->
  isTauri s = true ->
  fetchBalance_start backend s =
    (Some (get_account_balance backend (addressBalance s)),
     set_balanceError None s,
     [Invoke "get_account_balance" [("address", JStr (addressBalance s))]]).
Proof.
  intros H T. unfold fetchBalance_start, bind, read.
  rewrite guard_blank, H. by_fields s.
Qed.

Lemma nextPage_eq (s : State) :
  nextPage backend s = fetchBlocks_start backend (set_offset (offset s + 10) s).
Proof.
  unfold nextPage, bind, read, assign, limit.
  destruct (fetchBlocks_start backend (set_offset (offset s + 10) s))
    as [[p s'] fx].
  reflexivity.
Qed.

Lemma prevPage_eq (s : State) :
  prevPage backend s =
    fetchBlocks_start backend (set_offset (Z.max 0 (offset s - 10)) s).
Proof.
  unfold prevPage, bind, read, assign, limit.
  destruct (fetchBlocks_start backend (set_offset (Z.max 0 (offset s - 10)) s))
    as [[p s'] fx].
  reflexivity.
Qed.

Lemma onMount_tauri (window : option Window) (h : handle) (s : State) :
  detect_tauri window = true ->
  onMount backend window h s =
    ({| initial_fetch := Some (fetchBlocks_awaited backend s);
        cleanup := Some (emit (ClearInterval h)) |},
     set_error None (set_isLoading true (set_isTauri true s)),
     fetchBlocks_effects s
       ++ [SetInterval (CallFunction "fetchBlocks") 10000 h]).
Proof.
  intros H. unfold onMount, bind, read, assign. rewrite H.
  destruct s; reflexivity.
Qed.

Lemma onMount_browser (window : option Window) (h : handle) (s : State) :
  detect_tauri window = false ->
  onMount backend window h s =
    ({| initial_fetch := None; cleanup := None |},
     set_error (Some msg_requires_tauri) (set_isTauri false s),
     []).
Proof.
  intros H. unfold onMount, bind, read, assign. rewrite H.
  destruct s; reflexivity.
Qed.

End BlockExplorerEquations.

(* ================================================================== *)
(** ** Lookups: the made-up transaction and the blank-input guard *)
(* ================================================================== *)

Section Lookups.

Import BlockExplorer.

Local Open Scope string_scope.
Local Open Scope list_scope.
Local Open Scope Z_scope.

(** C3.  Transaction lookup fabricates its record.  Whenever the entered
    hash is non-empty once trimmed and the component runs inside Tauri,
    [fetchTransaction] stores in [transactionResult] a record whose [hash]
    is the hash as entered and whose other fields are the fixed
    placeholders; it clears [balanceError], changes nothing else, and
    logs no effect: no backend invocation is issued. *)
Theorem fetchTransaction_fabricates_record (s : State) :
  trim (transactionHash s) <> [] ->
  isTauri s = true ->
  fetchTransaction s =
    (tt,
     set_transactionResult
       (Some {| TransactionDetail.hash := transactionHash s;
                TransactionDetail.from :=
                  lit "0x0000000000000000000000000000000000000000";
                TransactionDetail.to :=
                  lit "0x0000000000000000000000000000000000000000";
                TransactionDetail.value := lit "0";
                TransactionDetail.gas := lit "21000";
                TransactionDetail.gasPrice := lit "20000000000" |})
       (set_balanceError None s),
     []).
Proof.
  intros Hne Ht.
  assert (Hb : blank (transactionHash s) = false).
  { destruct (blank (transactionHash s)) eqn:B; [|reflexivity].
    apply trim_nil_iff in B. contradiction. }
  rewrite (fetchTransaction_tauri s Hb Ht). reflexivity.
Qed.

(** C9.  Blank-input guard.  For every input string [v] that is empty or
    made of white space only, a component holding [v] as the transaction
    hash runs [fetchTransaction] to no effect, and one holding [v] as the
    address runs [fetchBalance] to no effect: the function returns at
    once, no remote call (indeed no platform call at all) is logged, and
    every component variable is as it was. *)
Theorem blank_input_guard (backend : Backend) (clock : Z) (v : jsstring)
    (s : State) :
  blank v = true ->
  fetchTransaction (set_transactionHash v s)
    = (tt, set_transactionHash v s, [])
  /\ fetchBalance_start backend (set_addressBalance v s)
    = (None, set_addressBalance v s, [])
  /\ fetchBalance backend clock (set_addressBalance v s)
    = Completed (set_addressBalance v s) [].
Proof.
  intros Hv. split; [|split].
  - apply fetchTransaction_blank. exact Hv.
  - apply fetchBalance_start_blank. exact Hv.
  - unfold fetchBalance, uninterrupted.
    rewrite fetchBalance_start_blank by exact Hv. reflexivity.
Qed.

End Lookups.

Lemma fetchTransaction_fabricates_record_witness :
  trim (BlockExplorer.transactionHash
          (BlockExplorer.set_transactionHash (lit " 0xabc ") Samples.in_tauri))
    <> []
  /\ BlockExplorer.isTauri
       (BlockExplorer.set_transactionHash (lit " 0xabc ") Samples.in_tauri)
     = true
  /\ BlockExplorer.transactionResult
       (state_of
          (BlockExplorer.fetchTransaction
             (BlockExplorer.set_transactionHash (lit " 0xabc ")
                Samples.in_tauri)))
     = Some (BlockExplorer.placeholder_transaction (lit " 0xabc ")).
Proof.
  assert (Hne : trim (BlockExplorer.transactionHash
                        (BlockExplorer.set_transactionHash (lit " 0xabc ")
                           Samples.in_tauri)) <> [])
    by (vm_compute; discriminate).
  split; [exact Hne|]. split; [reflexivity|].
  rewrite (fetchTransaction_fabricates_record
             (BlockExplorer.set_transactionHash (lit " 0xabc ") Samples.in_tauri)
             Hne eq_refl).
  reflexivity.
Defined.

Lemma blank_input_guard_witness :
  blank (lit "   ") = true
  /\ BlockExplorer.fetchTransaction
       (BlockExplorer.set_transactionHash (lit "   ") Samples.in_tauri)
     = (tt, BlockExplorer.set_transactionHash (lit "   ") Samples.in_tauri, []).
Proof.
  split; [reflexivity|].
  apply (blank_input_guard Samples.silent 0 (lit "   ") Samples.in_tauri).
  reflexivity.
Defined.

(* ================================================================== *)
(** ** A failed fetch *)
(* ================================================================== *)

Section FailedFetch.

Import BlockExplorer.

Local Open Scope string_scope.
Local Open Scope list_scope.
Local Open Scope Z_scope.

(** C2, as the code has it.  Take any call of [fetchBlocks] inside Tauri
    whose awaited race is rejected (a remote call failed, or the timeout
    won).  The call completes and logs nothing beyond the timer and the two
    calls it started with: nothing is retried.  It leaves the error string
    set and [isLoading] false; when the block list was non-empty nothing
    else changes, and when it was empty the list becomes the single
    placeholder block and [currentHeight] becomes 0. *)
Theorem failed_fetch_effect (backend : Backend) (clock : Z) (s : State)
    (t : N) (e : reason) :
  isTauri s = true ->
  fetchBlocks_awaited backend s = Some (t, Rejected e) ->
  fetchBlocks backend clock s =
    Completed
      match blocks s with
      | [] =>
          set_isLoading false
            (set_currentHeight 0
               (set_blocks [placeholder_block (clock + Z.of_N t)]
                  (set_error (Some msg_fetch_failed) s)))
      | _ :: _ => set_isLoading false (set_error (Some msg_fetch_failed) s)
      end
      (fetchBlocks_effects s).
Proof.
  intros Ht Hrej. unfold fetchBlocks, uninterrupted.
  rewrite (fetchBlocks_start_tauri backend s Ht), Hrej.
  destruct s as [bs ? ? ? ? ? ? ? ? ? ? ?].
  destruct bs as [|b r]; reflexivity.
Qed.

(** C10.  Stale data is kept.  When the [catch] block of [fetchBlocks] runs
    with a non-empty block list, the list and [currentHeight] keep their
    values, and the only variables written are the error string and
    [isLoading].  The placeholder block (number 0, all-zero hash and
    miner, no transactions) and the reset of [currentHeight] to 0 happen in
    the other case only: an empty list at the time of the failure. *)
Theorem stale_data_preserved (now : Z) (e : reason) (s : State) :
  let s' := state_of (fetchBlocks_resume now (Rejected e) s) in
  match blocks s with
  | _ :: _ =>
      s' = set_isLoading false (set_error (Some msg_fetch_failed) s)
      /\ blocks s' = blocks s
      /\ currentHeight s' = currentHeight s
  | [] =>
      s' = set_isLoading false
             (set_currentHeight 0
                (set_blocks
                   [{| BlockDetail.number := 0;
                       BlockDetail.hash :=
                         lit "0x0000000000000000000000000000000000000000000000000000000000000000";
                       BlockDetail.miner :=
                         lit "0x0000000000000000000000000000000000000000";
                       BlockDetail.timestamp := now / 1000;
                       BlockDetail.transaction_count := 0;
                       BlockDetail.transactions := [] |}]
                   (set_error (Some msg_fetch_failed) s)))
  end.
Proof.
  destruct s as [bs ? ? ? ? ? ? ? ? ? ? ?].
  destruct bs as [|b r]; cbv zeta.
  - reflexivity.
  - repeat split.
Qed.

End FailedFetch.

(** C2 as stated fails: inside Tauri with no block fetched yet, a call of
    [fetchBlocks] whose two remote calls are rejected does repopulate the
    block list, with the placeholder block. *)
Lemma failed_fetch_installs_placeholder :
  get_latest_blocks (Samples.rejecting 5) 10 0
    = Some (5%N, Rejected (ReasonString (lit "no node")))
  /\ ~ (BlockExplorer.blocks
          (run_state
             (BlockExplorer.fetchBlocks (Samples.rejecting 5) 1000
                Samples.in_tauri))
        = BlockExplorer.blocks Samples.in_tauri)
  /\ BlockExplorer.blocks
       (run_state
          (BlockExplorer.fetchBlocks (Samples.rejecting 5) 1000
             Samples.in_tauri))
     = [BlockExplorer.placeholder_block 1005].
Proof.
  split; [reflexivity|]. split; [|reflexivity].
  intros H. vm_compute in H. discriminate H.
Qed.

Lemma failed_fetch_effect_witness :
  BlockExplorer.isTauri Samples.in_tauri = true
  /\ BlockExplorer.fetchBlocks_awaited (Samples.rejecting 5) Samples.in_tauri
     = Some (5%N, Rejected (ReasonString (lit "no node")))
  /\ BlockExplorer.error
       (run_state
          (BlockExplorer.fetchBlocks (Samples.rejecting 5) 1000
             Samples.in_tauri))
     = Some BlockExplorer.msg_fetch_failed.
Proof.
  split; [reflexivity|]. split; [reflexivity|].
  rewrite (@failed_fetch_effect (Samples.rejecting 5) 1000 Samples.in_tauri
             5%N (ReasonString (lit "no node")));
    reflexivity.
Defined.

(* ================================================================== *)
(** ** Events: pagination and the bridge *)
(* ================================================================== *)

Section Events.

Import BlockExplorer Interface.

Local Open Scope string_scope.
Local Open Scope list_scope.
Local Open Scope Z_scope.

Variable backend : Backend.

Lemma state_of_bind (S A B : Type) (m : M S A) (k : A -> M S B) (s : S) :
  state_of (bind m k s) = state_of (k (value_of (m s)) (state_of (m s))).
Proof.
  unfold bind, state_of, value_of.
  destruct (m s) as [[a s1] fx1]. simpl.
  destruct (k a s1) as [[b s2] fx2]. reflexivity.
Qed.

(** Only the two pagination buttons write [offset]. *)
Lemma dispatch_offset (ev : event) (s : State) :
  offset (state_of (dispatch backend ev s)) =
    match ev with
    | ClickNextPage => offset s + 10
    | ClickPrevPage => Z.max 0 (offset s - 10)
    | _ => offset s
    end.
Proof. run_event ev s; reflexivity. Qed.

Lemma dispatch_keeps_aligned (ev : event) (s : State) :
  page_aligned (offset s) ->
  page_aligned (offset (state_of (dispatch backend ev s))).
Proof.
  unfold page_aligned. rewrite dispatch_offset.
  destruct ev; intros [H0 Hm]; try (split; assumption);
    split; try lia; Z.div_mod_to_equations; lia.
Qed.

Lemma dispatch_all_keeps_aligned (evs : list event) :
  forall s : State,
    page_aligned (offset s) ->
    page_aligned (offset (state_of (dispatch_all backend evs s))).
Proof.
  induction evs as [|ev rest IH]; intros s H.
  - exact H.
  - simpl dispatch_all. rewrite state_of_bind.
    apply IH. apply dispatch_keeps_aligned. exact H.
Qed.

(** C8.  Offset invariant.  From the initial component, after any finite
    sequence of events (clicks on the two pagination buttons, and whatever
    else may come between them: timer ticks, settled fetches, the other
    buttons), [offset] is a non-negative multiple of 10.  And from any
    state at all, [prevPage] leaves [offset] non-negative. *)
Theorem offset_invariant (evs : list event) (s : State) :
  let off := offset (state_of (dispatch_all backend evs initial)) in
  (0 <= off /\ off mod 10 = 0)
  /\ 0 <= offset (state_of (prevPage backend s)).
Proof.
  split.
  - apply dispatch_all_keeps_aligned. split; reflexivity.
  - pose proof (dispatch_offset ClickPrevPage s) as H.
    simpl dispatch in H. rewrite state_of_bind in H.
    unfold ret, state_of at 1 in H. simpl in H. rewrite H. lia.
Qed.

(** C4.  Pagination is an offset counter over the fixed limit 10.
    [nextPage] is [fetchBlocks] run with [offset] raised by 10; [prevPage]
    is [fetchBlocks] run with [offset] lowered by 10 and cut off at 0; and
    whatever event runs, each [get_latest_blocks] call it makes carries
    exactly [limit] 10 and the value [offset] then has. *)
Theorem pagination_offset_limit (ev : event) (s : State) :
  limit = 10
  /\ nextPage backend s
     = fetchBlocks_start backend (set_offset (offset s + 10) s)
  /\ prevPage backend s
     = fetchBlocks_start backend (set_offset (Z.max 0 (offset s - 10)) s)
  /\ passes_limit_and_offset
       (offset (state_of (dispatch backend ev s)))
       (effects_of (dispatch backend ev s)).
Proof.
  split; [reflexivity|]. split; [apply nextPage_eq|].
  split; [apply prevPage_eq|].
  unfold passes_limit_and_offset.
  run_event ev s; intros sent Hin; in_log Hin.
Qed.

End Events.

Lemma pagination_offset_limit_witness :
  In (Invoke "get_latest_blocks"
        [("limit"%string, JNum 10); ("offset"%string, JNum 10)])
     (effects_of
        (BlockExplorer.dispatch (Samples.answering 5) BlockExplorer.ClickNextPage
           Samples.in_tauri))
  /\ [("limit"%string, JNum 10); ("offset"%string, JNum 10)]
     = [("limit"%string, JNum 10);
        ("offset"%string,
         JNum (BlockExplorer.offset
                 (state_of
                    (BlockExplorer.dispatch (Samples.answering 5)
                       BlockExplorer.ClickNextPage Samples.in_tauri))))].
Proof.
  split; [right; left; reflexivity|].
  pose proof (pagination_offset_limit (Samples.answering 5)
                BlockExplorer.ClickNextPage Samples.in_tauri) as [_ [_ [_ H]]].
  exact (H [("limit"%string, JNum 10); ("offset"%string, JNum 10)]
           (or_intror (or_introl eq_refl))).
Defined.

(* ================================================================== *)
(** ** The bridge and the Tauri flag *)
(* ================================================================== *)

Section Bridge.

Import Interface.

Local Open Scope string_scope.
Local Open Scope list_scope.
Local Open Scope Z_scope.

Variable backend : Backend.

Ltac in_interface :=
  repeat (apply Forall_cons || apply Forall_nil);
  unfold interface_call;
  try exact I;
  first [ left; split; [reflexivity | eexists; eexists; reflexivity]
        | right; left; split; reflexivity
        | right; right; left; split; [reflexivity | eexists; reflexivity]
        | right; right; right; split; reflexivity ].

Lemma explorer_calls_in_interface (ev : BlockExplorer.event)
    (s : BlockExplorer.State) :
  Forall interface_call (effects_of (BlockExplorer.dispatch backend ev s)).
Proof.
  run_event ev s; in_interface.
Qed.

Lemma inspector_calls_in_interface (ev : AllTransactions.event)
    (s : AllTransactions.State) :
  Forall interface_call (effects_of (AllTransactions.dispatch backend ev s)).
Proof.
  run_event ev s; in_interface.
Qed.

(** C5.  The panels reach the backend through [invoke] only, with the four
    commands of the interface.  Every effect an event of either panel logs
    is, when it is a remote call, one of [get_latest_blocks {limit,
    offset}], [get_current_block] without arguments, [get_account_balance
    {address}] and [get_all_transactions] without arguments; each of the
    four is issued by some event; and what a call site gets back settles
    as a value or as an error. *)
Theorem bridge_commands (ev : BlockExplorer.event) (s : BlockExplorer.State)
    (ev' : AllTransactions.event) (s' : AllTransactions.State)
    (A : Type) (o : outcome A) :
  Forall interface_call (effects_of (BlockExplorer.dispatch backend ev s))
  /\ Forall interface_call (effects_of (AllTransactions.dispatch backend ev' s'))
  /\ In (Invoke "get_latest_blocks" [("limit", JNum 10); ("offset", JNum 0)])
        (effects_of
           (BlockExplorer.dispatch backend BlockExplorer.IntervalFired
              Samples.in_tauri))
  /\ In (Invoke "get_current_block" [])
        (effects_of
           (BlockExplorer.dispatch backend BlockExplorer.IntervalFired
              Samples.in_tauri))
  /\ In (Invoke "get_account_balance" [("address", JStr (lit "0xabc"))])
        (effects_of
           (BlockExplorer.dispatch backend BlockExplorer.ClickFetchBalance
              (BlockExplorer.set_addressBalance (lit "0xabc") Samples.in_tauri)))
  /\ In (Invoke "get_all_transactions" [])
        (effects_of
           (AllTransactions.dispatch backend AllTransactions.ClickFetchAll
              AllTransactions.initial))
  /\ ((exists a, o = Resolved a) \/ (exists e, o = Rejected e)).
Proof.
  split; [apply explorer_calls_in_interface|].
  split; [apply inspector_calls_in_interface|].
  split; [right; left; reflexivity|].
  split; [right; right; left; reflexivity|].
  split; [left; reflexivity|].
  split; [left; reflexivity|].
  apply outcome_cases.
Qed.

End Bridge.

Section TauriFlag.

Import BlockExplorer ExplorerView.

Local Open Scope string_scope.
Local Open Scope list_scope.
Local Open Scope Z_scope.

Variable backend : Backend.

(** No event but the mount writes [isTauri]. *)
Lemma dispatch_isTauri (ev : event) (s : State) :
  isTauri (state_of (dispatch backend ev s)) =
    match ev with
    | Mount window _ => detect_tauri window
    | _ => isTauri s
    end.
Proof. run_event ev s; try reflexivity; congruence. Qed.

(** C6.  Tauri detection is a flag that gates all backend access.
    [isTauri] is what the mount hook computes from [window]: true exactly
    when [window] exists and one of [__TAURI__], [__TAURI_INTERNALS__],
    [__TAURI_METADATA__] is defined; no other event writes it.  Whenever
    it is false, [fetchBlocks] sets its fixed message (and [isLoading] to
    false) and returns; [fetchTransaction] and [fetchBalance], called as
    the page calls them, from a button that is enabled, set their fixed
    message in [balanceError] and return; and none of the three logs any
    effect, so no remote call is issued, whatever the input. *)
Theorem tauri_flag_gates_backend (window : option Window) (h : handle)
    (ev : event) (s : State) :
  isTauri (state_of (onMount backend window h s))
    = match window with
      | None => false
      | Some w =>
          defined (__TAURI__ w) || defined (__TAURI_INTERNALS__ w)
          || defined (__TAURI_METADATA__ w)
      end
  /\ match ev with
     | Mount _ _ => True
     | _ => isTauri (state_of (dispatch backend ev s)) = isTauri s
     end
  /\ (isTauri s = false ->
      fetchBlocks_start backend s
        = (None, set_isLoading false (set_error (Some msg_requires_tauri) s), [])
      /\ (lookup_disabled s = false ->
          fetchTransaction s
          = (tt, set_balanceError (Some msg_transaction_requires_tauri) s, []))
      /\ (check_disabled s = false ->
          fetchBalance_start backend s
          = (None, set_balanceError (Some msg_balance_requires_tauri) s, []))
      /\ effects_of (fetchTransaction s) = []
      /\ effects_of (fetchBalance_start backend s) = []).
Proof.
  split; [|split].
  - pose proof (dispatch_isTauri (Mount window h) s) as H.
    simpl dispatch in H. rewrite state_of_bind in H. exact H.
  - pose proof (dispatch_isTauri ev s) as H. destruct ev; auto.
  - intros Hf. split; [apply fetchBlocks_start_browser; exact Hf|].
    split; [|split; [|split]].
    + intros Hen. unfold lookup_disabled in Hen. rewrite guard_blank in Hen.
      apply fetchTransaction_browser; assumption.
    + intros Hen. unfold check_disabled in Hen. rewrite guard_blank in Hen.
      apply fetchBalance_start_browser; assumption.
    + destruct (blank (transactionHash s)) eqn:B.
      * rewrite fetchTransaction_blank by exact B. reflexivity.
      * rewrite fetchTransaction_browser by assumption. reflexivity.
    + destruct (blank (addressBalance s)) eqn:B.
      * rewrite fetchBalance_start_blank by exact B. reflexivity.
      * rewrite fetchBalance_start_browser by assumption. reflexivity.
Qed.

End TauriFlag.

Lemma tauri_flag_gates_backend_witness :
  BlockExplorer.isTauri
    (BlockExplorer.set_addressBalance (lit "0xdef")
       (BlockExplorer.set_transactionHash (lit "0xabc") BlockExplorer.initial))
    = false
  /\ ExplorerView.lookup_disabled
       (BlockExplorer.set_addressBalance (lit "0xdef")
          (BlockExplorer.set_transactionHash (lit "0xabc") BlockExplorer.initial))
     = false
  /\ ExplorerView.check_disabled
       (BlockExplorer.set_addressBalance (lit "0xdef")
          (BlockExplorer.set_transactionHash (lit "0xabc") BlockExplorer.initial))
     = false
  /\ BlockExplorer.fetchTransaction
       (BlockExplorer.set_addressBalance (lit "0xdef")
          (BlockExplorer.set_transactionHash (lit "0xabc") BlockExplorer.initial))
     = (tt,
        BlockExplorer.set_balanceError
          (Some BlockExplorer.msg_transaction_requires_tauri)
          (BlockExplorer.set_addressBalance (lit "0xdef")
             (BlockExplorer.set_transactionHash (lit "0xabc")
                BlockExplorer.initial)),
        [])
  /\ BlockExplorer.fetchBalance_start Samples.silent
       (BlockExplorer.set_addressBalance (lit "0xdef")
          (BlockExplorer.set_transactionHash (lit "0xabc") BlockExplorer.initial))
     = (None,
        BlockExplorer.set_balanceError
          (Some BlockExplorer.msg_balance_requires_tauri)
          (BlockExplorer.set_addressBalance (lit "0xdef")
             (BlockExplorer.set_transactionHash (lit "0xabc")
                BlockExplorer.initial)),
        []).
Proof.
  split; [reflexivity|]. split; [reflexivity|]. split; [reflexivity|].
  pose proof (tauri_flag_gates_backend Samples.silent None 0%N
                BlockExplorer.ClickClose
                (BlockExplorer.set_addressBalance (lit "0xdef")
                   (BlockExplorer.set_transactionHash (lit "0xabc")
                      BlockExplorer.initial))) as [_ [_ H]].
  destruct (H eq_refl) as [_ [H2 [H3 _]]].
  split; [exact (H2 eq_refl) | exact (H3 eq_refl)].
Defined.

(* ================================================================== *)
(** ** Mounting: the first fetch, the timeout and the polling timer *)
(* ================================================================== *)

Section Mounting.

Import BlockExplorer.

Local Open Scope string_scope.
Local Open Scope list_scope.
Local Open Scope Z_scope.

Variable backend : Backend.

(** Whatever the backend does, the promise [fetchBlocks] waits on settles
    within ten seconds. *)
Lemma fetchBlocks_awaited_settles (s : State) :
  settles_within 10000 (fetchBlocks_awaited backend s).
Proof. unfold fetchBlocks_awaited. apply race_reject_after. Qed.


(** C7.  Polling is a fixed-interval timer.  Mounted inside Tauri, the
    component runs [fetchBlocks] once, then installs one interval timer of
    10000 ms whose callback is [fetchBlocks], and returns a cleanup that
    clears that very timer, so that none is left after unmount; a tick of
    the timer runs [fetchBlocks].  Mounted outside Tauri it logs nothing:
    no fetch, no timer, no cleanup. *)
Theorem polling_fixed_interval (window : option Window) (h : handle)
    (s t : State) :
  let r := onMount backend window h s in
  (if detect_tauri window then
     effects_of r
       = effects_of (fetchBlocks_start backend (set_isTauri true s))
         ++ [SetInterval (CallFunction "fetchBlocks") 10000 h]
     /\ initial_fetch (value_of r)
        = value_of (fetchBlocks_start backend (set_isTauri true s))
     /\ state_of r = state_of (fetchBlocks_start backend (set_isTauri true s))
     /\ remote_calls (effects_of r)
        = [Invoke "get_latest_blocks"
             [("limit", JNum 10); ("offset", JNum (offset s))];
           Invoke "get_current_block" []]
     /\ timers_after (effects_of r) []
        = [(h, CallFunction "fetchBlocks", 10000%N)]
     /\ effects_of (onDestroy (value_of r) (state_of r)) = [ClearInterval h]
     /\ timers_after
          (effects_of r ++ effects_of (onDestroy (value_of r) (state_of r))) []
        = []
   else
     effects_of r = []
     /\ initial_fetch (value_of r) = None
     /\ effects_of (onDestroy (value_of r) (state_of r)) = []
     /\ timers_after (effects_of r) [] = [])
  /\ state_of (dispatch backend IntervalFired t)
     = state_of (fetchBlocks_start backend t)
  /\ effects_of (dispatch backend IntervalFired t)
     = effects_of (fetchBlocks_start backend t).
Proof.
  cbv zeta. split.
  - destruct (detect_tauri window) eqn:D.
    + rewrite onMount_tauri by exact D.
      rewrite (fetchBlocks_start_tauri backend (set_isTauri true s))
        by (destruct s; reflexivity).
      unfold effects_of, value_of, state_of, onDestroy, emit.
      cbn [fst snd initial_fetch cleanup].
      repeat split; try (destruct s; reflexivity).
      cbn. rewrite N.eqb_refl. reflexivity.
    + rewrite onMount_browser by exact D. repeat split.
  - unfold dispatch, bind, ret, state_of, effects_of.
    destruct (fetchBlocks_start backend t) as [[p t'] fx]. simpl.
    split; [reflexivity | apply app_nil_r].
Qed.

End Mounting.

Section Activation.

Local Open Scope string_scope.
Local Open Scope list_scope.
Local Open Scope Z_scope.

Variable backend : Backend.


End Activation.


(* ================================================================== *)
(** ** Concrete runs *)
(* ================================================================== *)

Section Runs.

Import BlockExplorer Samples.

Local Open Scope list_scope.
Local Open Scope Z_scope.

(** The backend answers in time: the blocks and the height are stored. *)
Example fetchBlocks_answered :
  let s := run_state (fetchBlocks (answering 5) 1000 in_tauri) in
  blocks s = [block 7; block 6] /\ currentHeight s = 7 /\ error s = None
  /\ isLoading s = false.
Proof. repeat split. Qed.

(** The backend answers after twenty seconds: the timeout has won, and the
    empty list is replaced by the placeholder stamped ten seconds after the
    call. *)
Example fetchBlocks_too_late :
  let s := run_state (fetchBlocks (answering 20000) 1000 in_tauri) in
  blocks s = [placeholder_block 11000] /\ error s = Some msg_fetch_failed.
Proof. split; reflexivity. Qed.

(** The backend never answers: the call still ends, through the timeout. *)
Example fetchBlocks_unanswered :
  exists s,
    fetchBlocks silent 1000 in_tauri = Completed s (fetchBlocks_effects in_tauri)
    /\ error s = Some msg_fetch_failed /\ isLoading s = false.
Proof. eexists. repeat split. Qed.

(** With blocks already shown, a failure keeps them. *)
Example fetchBlocks_keeps_stale_blocks :
  let shown := set_currentHeight 7 (set_blocks [block 7; block 6] in_tauri) in
  let s := run_state (fetchBlocks (rejecting 5) 1000 shown) in
  blocks s = [block 7; block 6] /\ currentHeight s = 7
  /\ error s = Some msg_fetch_failed.
Proof. repeat split. Qed.

Example detect_tauri_samples :
  detect_tauri (Some tauri_window) = true
  /\ detect_tauri (Some browser_window) = false
  /\ detect_tauri None = false.
Proof. repeat split. Qed.

(** Mounting in a plain browser only sets the error message. *)
Example mount_in_browser :
  onMount silent (Some browser_window) 1%N initial
  = ({| initial_fetch := None; cleanup := None |},
     set_error (Some msg_requires_tauri) initial,
     []).
Proof. reflexivity. Qed.

(** Two pages forward, three pages back. *)
Example paging :
  map (fun evs => offset (state_of (dispatch_all (answering 5) evs in_tauri)))
      [ [ClickNextPage];
        [ClickNextPage; ClickNextPage];
        [ClickNextPage; ClickNextPage; ClickPrevPage];
        [ClickNextPage; ClickNextPage; ClickPrevPage; ClickPrevPage;
         ClickPrevPage] ]
  = [10; 20; 10; 0].
Proof. reflexivity. Qed.

Example fetchBalance_answered :
  balanceResult
    (run_state
       (fetchBalance (answering 5) 0 (set_addressBalance (lit "0xabc") in_tauri)))
  = Some (lit "1.5 ETH").
Proof. reflexivity. Qed.

(** [fetchBalance] has no timer behind it: unanswered, it stays at its
    [await]. *)
Example fetchBalance_unanswered :
  fetchBalance silent 0 (set_addressBalance (lit "0xabc") in_tauri)
  = Waiting (set_addressBalance (lit "0xabc") in_tauri)
      [Invoke "get_account_balance" [("address"%string, JStr (lit "0xabc"))]].
Proof. reflexivity. Qed.

(** An [Error] without a message converts to its name alone. *)
Example error_to_string :
  reason_to_string (ReasonError []) = lit "Error"
  /\ reason_to_string (ReasonError (lit "Request timeout"))
     = lit "Error: Request timeout"
  /\ reason_to_string (ReasonString (lit "no node")) = lit "no node".
Proof. repeat split. Qed.

Example fetchAllTransactions_rejected :
  let r := AllTransactions.fetchAllTransactions (rejecting 5) 0
             AllTransactions.initial in
  AllTransactions.error (run_state r)
    = Some (lit "Failed to fetch transactions: no node")
  /\ AllTransactions.isLoading (run_state r) = false.
Proof. split; reflexivity. Qed.

End Runs.

(* ================================================================== *)
(** ** Further properties of [fetchBlocks] *)
(* ================================================================== *)

Section FetchBlocksRuns.

Import BlockExplorer.

Local Open Scope string_scope.
Local Open Scope list_scope.
Local Open Scope Z_scope.

Variable backend : Backend.

(** The variables after the [catch] and [finally] blocks, for a call made
    in state [s] and failing at time [now]. *)
Local Notation "'failed' now s" :=
  (match blocks s with
   | [] =>
       set_isLoading false
         (set_currentHeight 0
            (set_blocks [placeholder_block now]
               (set_error (Some msg_fetch_failed) s)))
   | _ :: _ => set_isLoading false (set_error (Some msg_fetch_failed) s)
   end) (at level 10, now at level 9, s at level 9, only parsing).

(** The second half of [fetchBlocks] logs nothing. *)
Lemma fetchBlocks_resume_silent (now : Z) (o : outcome (list BlockDetail.t * Z))
    (s : State) :
  effects_of (fetchBlocks_resume now o s) = [].
Proof.
  destruct o as [[bs h]|e]; [reflexivity|].
  destruct s as [bl ? ? ? ? ? ? ? ? ? ? ?]. destruct bl; reflexivity.
Qed.

(** An uninterrupted call inside Tauri, in terms of how the awaited race
    settles. *)
Lemma fetchBlocks_run_tauri (clock : Z) (s : State) (t : N)
    (o : outcome (list BlockDetail.t * Z)) :
  isTauri s = true ->
  fetchBlocks_awaited backend s = Some (t, o) ->
  fetchBlocks backend clock s =
    Completed
      (state_of (fetchBlocks_resume (clock + Z.of_N t) o
                   (set_error None (set_isLoading true s))))
      (fetchBlocks_effects s).
Proof.
  intros T E. unfold fetchBlocks, uninterrupted.
  rewrite (fetchBlocks_start_tauri backend s T), E.
  pose proof (fetchBlocks_resume_silent (clock + Z.of_N t) o
                (set_error None (set_isLoading true s))) as Hfx.
  unfold effects_of, state_of in *.
  destruct (fetchBlocks_resume (clock + Z.of_N t) o
              (set_error None (set_isLoading true s))) as [[u s2] fx2].
  simpl in Hfx. subst fx2. rewrite app_nil_r. reflexivity.
Qed.

Lemma failed_from_started (now : Z) (e : reason) (s : State) :
  state_of (fetchBlocks_resume now (Rejected e)
              (set_error None (set_isLoading true s)))
  = failed now s.
Proof.
  destruct s as [bl ? ? ? ? ? ? ? ? ? ? ?]. destruct bl; reflexivity.
Qed.

(** X1.  The spinner cannot get stuck.  Whatever the backend does, and
    whether or not the component runs inside Tauri, a call of [fetchBlocks]
    left alone runs to its end and leaves [isLoading] false; it never moves
    [offset]; inside Tauri it logs the timer and the two calls, outside
    nothing. *)
Theorem fetchBlocks_ends_idle (clock : Z) (s : State) :
  exists s' fx,
    fetchBlocks backend clock s = Completed s' fx
    /\ isLoading s' = false
    /\ offset s' = offset s
    /\ fx = (if isTauri s then fetchBlocks_effects s else []).
Proof.
  destruct (isTauri s) eqn:T.
  - destruct (fetchBlocks_awaited_settles backend s) as [t [o [E _]]].
    rewrite (fetchBlocks_run_tauri clock s T E).
    eexists _, _. split; [reflexivity|].
    destruct o as [[bs h]|e].
    + destruct s; repeat split.
    + rewrite failed_from_started.
      destruct s as [bl ? ? ? ? ? ? ? ? ? ? ?]. destruct bl; repeat split.
  - unfold fetchBlocks, uninterrupted.
    rewrite (fetchBlocks_start_browser backend s T).
    eexists _, _. split; [reflexivity|]. destruct s; repeat split.
Qed.

(** X2.  A fetch answered in time.  Inside Tauri, when both calls are
    fulfilled before the 10000 ms deadline, the blocks and the height they
    returned are stored, the error string is cleared, [isLoading] ends
    false, and no other variable changes. *)
Theorem fetchBlocks_answered_in_time (clock : Z) (s : State) (t1 t2 : N)
    (bs : list BlockDetail.t) (h : Z) :
  isTauri s = true ->
  get_latest_blocks backend 10 (offset s) = Some (t1, Resolved bs) ->
  get_current_block backend = Some (t2, Resolved h) ->
  (t1 < 10000)%N ->
  (t2 < 10000)%N ->
  fetchBlocks backend clock s =
    Completed
      (set_isLoading false
         (set_currentHeight h (set_blocks bs (set_error None s))))
      (fetchBlocks_effects s).
Proof.
  intros T E1 E2 L1 L2.
  assert (E : fetchBlocks_awaited backend s
              = Some (N.max t1 t2, Resolved (bs, h))).
  { unfold fetchBlocks_awaited. rewrite E1, E2. unfold all2, race, reject_after.
    assert (Hle : (N.max t1 t2 <=? 10000)%N = true) by (apply N.leb_le; lia).
    rewrite Hle. reflexivity. }
  rewrite (fetchBlocks_run_tauri clock s T E). destruct s; reflexivity.
Qed.


(** X4.  One rejection fails the whole fetch.  Inside Tauri, when either
    call is rejected before the deadline, the call fails no later than that
    rejection, whatever the other call does: even if the other call was
    fulfilled, nothing of its answer is stored. *)
Theorem fetchBlocks_one_rejection (clock : Z) (s : State) (t : N) (e : reason) :
  isTauri s = true ->
  get_latest_blocks backend 10 (offset s) = Some (t, Rejected e)
  \/ get_current_block backend = Some (t, Rejected e) ->
  (t < 10000)%N ->
  exists t',
    (t' <= t)%N
    /\ fetchBlocks backend clock s =
         Completed (failed (clock + Z.of_N t') s) (fetchBlocks_effects s).
Proof.
  intros T Hrej L.
  assert (E : exists t' e', (t' <= t)%N
              /\ fetchBlocks_awaited backend s = Some (t', Rejected e')).
  { unfold fetchBlocks_awaited.
    assert (A : exists t' e', (t' <= t)%N
                /\ all2 (get_latest_blocks backend 10 (offset s))
                        (get_current_block backend)
                   = Some (t', Rejected e')).
    { destruct Hrej as [H|H]; rewrite H.
      - destruct (get_current_block backend) as [[t2 [h|e2]]|]; simpl.
        + exists t, e. split; [lia | reflexivity].
        + destruct (t <=? t2)%N eqn:C.
          * exists t, e. split; [lia | reflexivity].
          * exists t2, e2. apply N.leb_gt in C. split; [lia | reflexivity].
        + exists t, e. split; [lia | reflexivity].
      - destruct (get_latest_blocks backend 10 (offset s)) as [[t1 [bs|e1]]|];
          simpl.
        + exists t, e. split; [lia | reflexivity].
        + destruct (t1 <=? t)%N eqn:C.
          * exists t1, e1. apply N.leb_le in C. split; [lia | reflexivity].
          * exists t, e. split; [lia | reflexivity].
        + exists t, e. split; [lia | reflexivity]. }
    destruct A as [t' [e' [Hle A]]]. rewrite A.
    exists t', e'. split; [exact Hle|].
    unfold race, reject_after.
    assert (Hc : (t' <=? 10000)%N = true) by (apply N.leb_le; lia).
    rewrite Hc. reflexivity. }
  destruct E as [t' [e' [Hle E]]]. exists t'. split; [exact Hle|].
  rewrite (fetchBlocks_run_tauri clock s T E), failed_from_started.
  reflexivity.
Qed.

End FetchBlocksRuns.

Lemma fetchBlocks_answered_in_time_witness :
  BlockExplorer.isTauri Samples.in_tauri = true
  /\ (5 < 10000)%N
  /\ BlockExplorer.fetchBlocks (Samples.answering 5) 1000 Samples.in_tauri
     = Completed
         (BlockExplorer.set_isLoading false
            (BlockExplorer.set_currentHeight 7
               (BlockExplorer.set_blocks [Samples.block 7; Samples.block 6]
                  (BlockExplorer.set_error None Samples.in_tauri))))
         (BlockExplorer.fetchBlocks_effects Samples.in_tauri).
Proof.
  split; [reflexivity|]. split; [reflexivity|].
  apply (@fetchBlocks_answered_in_time (Samples.answering 5) 1000
           Samples.in_tauri 5%N 5%N);
    reflexivity.
Defined.


Lemma fetchBlocks_one_rejection_witness :
  BlockExplorer.isTauri Samples.in_tauri = true
  /\ get_current_block (Samples.rejecting 5)
     = Some (5%N, Rejected (ReasonString (lit "no node")))
  /\ exists t',
       (t' <= 5)%N
       /\ BlockExplorer.error
            (run_state
               (BlockExplorer.fetchBlocks (Samples.rejecting 5) 1000
                  Samples.in_tauri))
          = Some BlockExplorer.msg_fetch_failed.
Proof.
  split; [reflexivity|]. split; [reflexivity|].
  destruct (@fetchBlocks_one_rejection (Samples.rejecting 5) 1000
              Samples.in_tauri 5%N (ReasonString (lit "no node"))
              eq_refl (or_intror eq_refl) eq_refl) as [t' [Hle _]].
  exists t'. split; [exact Hle | reflexivity].
Defined.

(* ================================================================== *)
(** ** Traces of events on the block explorer *)
(* ================================================================== *)

Section Traces.

Import BlockExplorer ExplorerView Interface.

Local Open Scope string_scope.
Local Open Scope list_scope.
Local Open Scope Z_scope.

Variable backend : Backend.

Lemma effects_of_bind (S A B : Type) (m : M S A) (k : A -> M S B) (s : S) :
  effects_of (bind m k s)
  = effects_of (m s) ++ effects_of (k (value_of (m s)) (state_of (m s))).
Proof.
  unfold bind, state_of, value_of, effects_of.
  destruct (m s) as [[a s1] fx1]. simpl.
  destruct (k a s1) as [[b s2] fx2]. reflexivity.
Qed.

Lemma dispatch_all_cons (ev : event) (evs : list event) (s : State) :
  state_of (dispatch_all backend (ev :: evs) s)
  = state_of (dispatch_all backend evs (state_of (dispatch backend ev s))).
Proof. simpl dispatch_all. apply state_of_bind. Qed.

Lemma dispatch_all_cons_effects (ev : event) (evs : list event) (s : State) :
  effects_of (dispatch_all backend (ev :: evs) s)
  = effects_of (dispatch backend ev s)
    ++ effects_of (dispatch_all backend evs (state_of (dispatch backend ev s))).
Proof. simpl dispatch_all. apply effects_of_bind. Qed.

Lemma dispatch_all_app (evs1 evs2 : list event) :
  forall s : State,
    state_of (dispatch_all backend (evs1 ++ evs2) s)
    = state_of (dispatch_all backend evs2
                  (state_of (dispatch_all backend evs1 s))).
Proof.
  induction evs1 as [|ev rest IH]; intros s; [reflexivity|].
  simpl app. rewrite !dispatch_all_cons. apply IH.
Qed.

(** What each event does to the block list. *)
Lemma dispatch_blocks (ev : event) (s : State) :
  blocks (state_of (dispatch backend ev s)) =
    match ev with
    | BlocksSettled _ (Resolved (bs, _)) => bs
    | BlocksSettled now (Rejected _) =>
        match blocks s with
        | [] => [placeholder_block now]
        | _ :: _ => blocks s
        end
    | _ => blocks s
    end.
Proof.
  destruct ev; try (destruct o as [[bs hh]|e]);
    destruct s as [bl ? ? ? ? ? ? ? ? ? ? ?]; try (destruct bl);
    unfold_scripts; project_fields;
    first [reflexivity | split_ifs; reflexivity].
Qed.

Lemma dispatch_keeps_rows (ev : event) (s : State) :
  empty_page_reply ev = false ->
  blocks s <> [] ->
  blocks (state_of (dispatch backend ev s)) <> [].
Proof.
  intros He Hs. rewrite dispatch_blocks.
  destruct ev; try exact Hs.
  destruct o as [[bs hh]|e].
  - destruct bs; [discriminate He | discriminate].
  - destruct (blocks s); [contradiction | discriminate].
Qed.

Lemma dispatch_all_keeps_rows (evs : list event) :
  forall s : State,
    forallb (fun ev => negb (empty_page_reply ev)) evs = true ->
    blocks s <> [] ->
    blocks (state_of (dispatch_all backend evs s)) <> [].
Proof.
  induction evs as [|ev rest IH]; intros s Hall Hs; [exact Hs|].
  simpl in Hall. apply andb_prop in Hall. destruct Hall as [Hev Hrest].
  rewrite dispatch_all_cons. apply IH; [exact Hrest|].
  apply dispatch_keeps_rows; [|exact Hs].
  destruct (empty_page_reply ev); [discriminate Hev | reflexivity].
Qed.

(** X5.  The table does not go blank.  Once a fetch has failed the block
    list holds at least one row (a stale one, or the placeholder), and
    whatever happens next it keeps at least one, up to the moment the
    backend itself answers with an empty page. *)
Theorem table_keeps_a_row (now : Z) (e : reason) (evs : list event)
    (s : State) :
  forallb (fun ev => negb (empty_page_reply ev)) evs = true ->
  blocks (state_of
            (dispatch_all backend (BlocksSettled now (Rejected e) :: evs) s))
  <> [].
Proof.
  intros Hall. rewrite dispatch_all_cons.
  apply dispatch_all_keeps_rows; [exact Hall|].
  rewrite dispatch_blocks. destruct (blocks s); discriminate.
Qed.

(** X6.  The lookup boxes and the block table do not interfere.  An event
    of the lookup boxes (typing, the two buttons, a settled balance call)
    leaves the block list, the error banner, the offset, the height, the
    selection, [isLoading] and [isTauri] as they were; every other event
    leaves the five lookup variables as they were. *)
Theorem lookups_and_table_apart (ev : event) (s : State) :
  let s' := state_of (dispatch backend ev s) in
  if is_lookup_event ev then
    blocks s' = blocks s /\ error s' = error s /\ offset s' = offset s
    /\ currentHeight s' = currentHeight s
    /\ selectedBlock s' = selectedBlock s
    /\ isLoading s' = isLoading s /\ isTauri s' = isTauri s
  else
    transactionHash s' = transactionHash s
    /\ transactionResult s' = transactionResult s
    /\ addressBalance s' = addressBalance s
    /\ balanceResult s' = balanceResult s
    /\ balanceError s' = balanceError s.
Proof.
  cbv zeta. destruct ev; cbn [is_lookup_event]; destruct s;
    unfold_scripts; project_fields; split_ifs; project_fields;
    repeat split.
Qed.

(** What each event does to the selection. *)
Lemma dispatch_selectedBlock (ev : event) (s : State) :
  selectedBlock (state_of (dispatch backend ev s)) =
    match ev with
    | ClickBlock block => Some block
    | ClickClose => None
    | _ => selectedBlock s
    end.
Proof. run_event ev s; reflexivity. Qed.

Lemma dispatch_all_selectedBlock (evs : list event) :
  forall s : State,
    forallb (fun ev => negb (touches_selection ev)) evs = true ->
    selectedBlock (state_of (dispatch_all backend evs s)) = selectedBlock s.
Proof.
  induction evs as [|ev rest IH]; intros s Hall; [reflexivity|].
  simpl in Hall. apply andb_prop in Hall. destruct Hall as [Hev Hrest].
  rewrite dispatch_all_cons, (IH _ Hrest).
  rewrite dispatch_selectedBlock. destruct ev; try reflexivity; discriminate Hev.
Qed.

(** X7.  The details modal shows a snapshot.  After a click on a block's
    Details button the modal shows that block through any further events
    (page changes, timer ticks, fetches that replace the whole list,
    lookups) until the close button or another Details button is
    clicked; the close button then hides it. *)
Theorem modal_keeps_selected_block (block : BlockDetail.t) (evs : list event)
    (s : State) :
  forallb (fun ev => negb (touches_selection ev)) evs = true ->
  let shown := state_of (dispatch_all backend (ClickBlock block :: evs) s) in
  selectedBlock shown = Some block
  /\ shows_modal shown = true
  /\ shows_modal (state_of (dispatch backend ClickClose shown)) = false.
Proof.
  intros Hall. cbv zeta.
  assert (E : selectedBlock
                (state_of (dispatch_all backend (ClickBlock block :: evs) s))
              = Some block).
  { rewrite dispatch_all_cons.
    rewrite (dispatch_all_selectedBlock evs _ Hall).
    apply dispatch_selectedBlock. }
  split; [exact E|]. split.
  - unfold shows_modal. rewrite E. reflexivity.
  - unfold shows_modal. rewrite dispatch_selectedBlock. reflexivity.
Qed.

Lemma next_pages (n : nat) :
  forall s : State,
    offset (state_of (dispatch_all backend (repeat ClickNextPage n) s))
    = offset s + 10 * Z.of_nat n.
Proof.
  induction n as [|n IH]; intros s.
  - change (offset s = offset s + 10 * 0). lia.
  - simpl repeat. rewrite dispatch_all_cons, IH.
    rewrite dispatch_offset. lia.
Qed.

Lemma prev_pages (m : nat) :
  forall s : State,
    0 <= offset s ->
    offset (state_of (dispatch_all backend (repeat ClickPrevPage m) s))
    = Z.max 0 (offset s - 10 * Z.of_nat m).
Proof.
  induction m as [|m IH]; intros s H.
  - change (offset s = Z.max 0 (offset s - 10 * 0)). lia.
  - simpl repeat. rewrite dispatch_all_cons, IH.
    + rewrite dispatch_offset. lia.
    + rewrite dispatch_offset. lia.
Qed.

(** X8.  Paging there and back.  From a non-negative offset, [n] clicks on
    Next followed by [m] clicks on Previous leave the offset at
    [offset + 10 n - 10 m], cut off at 0: as many steps back as forward
    return to the starting page, and surplus steps back stop at the first
    page.  Nothing bounds the way forward: neither the height nor an empty
    page stops Next. *)
Theorem paging_there_and_back (n m : nat) (s : State) :
  0 <= offset s ->
  offset (state_of
            (dispatch_all backend
               (repeat ClickNextPage n ++ repeat ClickPrevPage m) s))
  = Z.max 0 (offset s + 10 * Z.of_nat n - 10 * Z.of_nat m).
Proof.
  intros H. rewrite dispatch_all_app, prev_pages; rewrite next_pages; lia.
Qed.

(** X9.  The Previous button never needs the cut-off.  In any state reached
    from the initial one, if the Previous button is enabled then [offset]
    is at least 10, [prevPage] lowers it by exactly 10, and [nextPage]
    after it restores it. *)
Theorem prev_enabled_steps_back (evs : list event) :
  let s := state_of (dispatch_all backend evs initial) in
  prev_disabled s = false ->
  10 <= offset s
  /\ offset (state_of (prevPage backend s)) = offset s - 10
  /\ offset (state_of (nextPage backend (state_of (prevPage backend s))))
     = offset s.
Proof.
  cbv zeta. intros Hen.
  pose proof (dispatch_all_keeps_aligned backend evs initial) as Hal.
  unfold page_aligned in Hal. specialize (Hal (conj (Z.le_refl 0) eq_refl)).
  destruct Hal as [H0 Hm].
  unfold prev_disabled in Hen. apply orb_false_elim in Hen.
  destruct Hen as [Hz _]. apply Z.eqb_neq in Hz.
  set (s := state_of (dispatch_all backend evs initial)) in *.
  assert (H10 : 10 <= offset s) by (Z.div_mod_to_equations; lia).
  pose proof (dispatch_offset backend ClickPrevPage s) as Hp.
  pose proof (dispatch_offset backend ClickNextPage
                (state_of (prevPage backend s))) as Hn.
  simpl dispatch in Hp, Hn. rewrite state_of_bind in Hp, Hn.
  unfold ret, state_of at 1 in Hp. unfold ret, state_of at 1 in Hn.
  simpl in Hp, Hn.
  split; [exact H10|]. split; [rewrite Hp; lia|].
  rewrite Hn, Hp. lia.
Qed.

(** Outside Tauri one event logs nothing and leaves [isTauri] false. *)
Lemma browser_step (ev : event) (s : State) :
  isTauri s = false ->
  mounts_in_tauri ev = false ->
  effects_of (dispatch backend ev s) = []
  /\ isTauri (state_of (dispatch backend ev s)) = false.
Proof.
  intros T Hm. destruct ev; destruct s; simpl in T, Hm; subst;
    unfold_scripts; project_fields; try rewrite Hm;
    split_ifs; project_fields; try discriminate; split; reflexivity.
Qed.

(** The same along a sequence of events. *)
Lemma browser_trace (evs : list event) :
  forall s : State,
    isTauri s = false ->
    forallb (fun ev => negb (mounts_in_tauri ev)) evs = true ->
    effects_of (dispatch_all backend evs s) = []
    /\ isTauri (state_of (dispatch_all backend evs s)) = false.
Proof.
  induction evs as [|ev rest IH]; intros s T Hall.
  - split; [reflexivity | exact T].
  - simpl in Hall. apply andb_prop in Hall. destruct Hall as [Hev Hrest].
    assert (Hm : mounts_in_tauri ev = false)
      by (destruct (mounts_in_tauri ev); [discriminate Hev | reflexivity]).
    destruct (browser_step ev s T Hm) as [Hfx HT].
    destruct (IH _ HT Hrest) as [IHfx IHT].
    rewrite dispatch_all_cons_effects, dispatch_all_cons, Hfx, IHfx.
    split; [reflexivity | exact IHT].
Qed.

(** X10.  Outside Tauri the component is inert towards the platform.  From
    a state with [isTauri] false, through any sequence of events in which
    no mount finds the Tauri globals, nothing at all is logged (no remote
    call, no timer) and [isTauri] stays false. *)
Theorem browser_never_calls (evs : list event) :
  forall s : State,
    isTauri s = false ->
    forallb (fun ev => negb (mounts_in_tauri ev)) evs = true ->
    effects_of (dispatch_all backend evs s) = []
    /\ isTauri (state_of (dispatch_all backend evs s)) = false.
Proof. intros s T Hall. apply browser_trace; assumption. Qed.

(** X11.  Outside Tauri the Next button still pages.  With [isTauri] false
    every click on Next is accepted (the button is never disabled
    afterwards), moves [offset] ten further and fetches nothing; the only
    other trace it leaves is the error message. *)
Theorem browser_next_still_pages (n : nat) (s : State) :
  isTauri s = false ->
  let s' := state_of (dispatch_all backend (repeat ClickNextPage (S n)) s) in
  offset s' = offset s + 10 * Z.of_nat (S n)
  /\ next_disabled s' = false
  /\ error s' = Some msg_requires_tauri
  /\ blocks s' = blocks s
  /\ effects_of (dispatch_all backend (repeat ClickNextPage (S n)) s) = [].
Proof.
  intros T. cbv zeta. split; [apply next_pages|].
  assert (Hstep : forall t : State,
             isTauri t = false ->
             let t' := state_of (dispatch backend ClickNextPage t) in
             isTauri t' = false /\ isLoading t' = false
             /\ error t' = Some msg_requires_tauri /\ blocks t' = blocks t).
  { intros t Ht. destruct t; simpl in Ht; subst. repeat split. }
  assert (Hall : forall k (t : State),
             isTauri t = false -> isLoading t = false ->
             error t = Some msg_requires_tauri ->
             let t' := state_of (dispatch_all backend (repeat ClickNextPage k) t) in
             isLoading t' = false /\ error t' = Some msg_requires_tauri
             /\ blocks t' = blocks t).
  { induction k as [|k IHk]; intros t Ht Hl He; cbv zeta.
    - repeat split; assumption.
    - simpl repeat. rewrite dispatch_all_cons.
      destruct (Hstep t Ht) as [H1 [H2 [H3 H4]]].
      destruct (IHk _ H1 H2 H3) as [I1 [I2 I3]].
      repeat split; [exact I1 | exact I2 | rewrite I3; exact H4]. }
  simpl repeat. rewrite dispatch_all_cons.
  destruct (Hstep s T) as [H1 [H2 [H3 H4]]].
  destruct (Hall n _ H1 H2 H3) as [I1 [I2 I3]].
  split; [exact I1|]. split; [exact I2|]. split; [rewrite I3; exact H4|].
  apply (browser_trace (ClickNextPage :: repeat ClickNextPage n) s T).
  clear. induction n as [|n IH]; [reflexivity | exact IH].
Qed.

End Traces.

Lemma table_keeps_a_row_witness :
  forallb (fun ev => negb (ExplorerView.empty_page_reply ev))
    [BlockExplorer.ClickNextPage; BlockExplorer.IntervalFired] = true
  /\ BlockExplorer.blocks
       (state_of
          (BlockExplorer.dispatch_all Samples.silent
             [BlockExplorer.BlocksSettled 5000 (Rejected (ReasonString (lit "no node")));
              BlockExplorer.ClickNextPage; BlockExplorer.IntervalFired]
             Samples.in_tauri))
     <> [].
Proof.
  split; [reflexivity|].
  apply (@table_keeps_a_row Samples.silent 5000 (ReasonString (lit "no node"))
           [BlockExplorer.ClickNextPage; BlockExplorer.IntervalFired]
           Samples.in_tauri).
  reflexivity.
Defined.

Lemma modal_keeps_selected_block_witness :
  forallb (fun ev => negb (ExplorerView.touches_selection ev))
    [BlockExplorer.ClickNextPage;
     BlockExplorer.BlocksSettled 5000 (Resolved ([Samples.block 9], 9%Z))] = true
  /\ BlockExplorer.selectedBlock
       (state_of
          (BlockExplorer.dispatch_all Samples.silent
             [BlockExplorer.ClickBlock (Samples.block 7);
              BlockExplorer.ClickNextPage;
              BlockExplorer.BlocksSettled 5000 (Resolved ([Samples.block 9], 9%Z))]
             Samples.in_tauri))
     = Some (Samples.block 7).
Proof.
  split; [reflexivity|].
  apply (@modal_keeps_selected_block Samples.silent (Samples.block 7)
           [BlockExplorer.ClickNextPage;
            BlockExplorer.BlocksSettled 5000 (Resolved ([Samples.block 9], 9%Z))]
           Samples.in_tauri).
  reflexivity.
Defined.

Lemma paging_there_and_back_witness :
  (0 <= BlockExplorer.offset Samples.in_tauri)%Z
  /\ BlockExplorer.offset
       (state_of
          (BlockExplorer.dispatch_all Samples.silent
             (repeat BlockExplorer.ClickNextPage 3
              ++ repeat BlockExplorer.ClickPrevPage 5)
             Samples.in_tauri))
     = Z.max 0 (0 + 10 * 3 - 10 * 5).
Proof.
  split; [apply Z.le_refl|].
  apply (@paging_there_and_back Samples.silent 3 5 Samples.in_tauri).
  apply Z.le_refl.
Defined.

Lemma prev_enabled_steps_back_witness :
  ExplorerView.prev_disabled
    (state_of
       (BlockExplorer.dispatch_all Samples.silent
          [BlockExplorer.ClickNextPage; BlockExplorer.ClickNextPage]
          BlockExplorer.initial))
  = false
  /\ BlockExplorer.offset
       (state_of
          (BlockExplorer.prevPage Samples.silent
             (state_of
                (BlockExplorer.dispatch_all Samples.silent
                   [BlockExplorer.ClickNextPage; BlockExplorer.ClickNextPage]
                   BlockExplorer.initial))))
     = (20 - 10)%Z.
Proof.
  split; [reflexivity|].
  apply (@prev_enabled_steps_back Samples.silent
           [BlockExplorer.ClickNextPage; BlockExplorer.ClickNextPage]).
  reflexivity.
Defined.

Lemma browser_never_calls_witness :
  BlockExplorer.isTauri BlockExplorer.initial = false
  /\ effects_of
       (BlockExplorer.dispatch_all (Samples.answering 5)
          [BlockExplorer.Mount (Some Samples.browser_window) 1%N;
           BlockExplorer.ClickNextPage;
           BlockExplorer.InputAddressBalance (lit "0xabc");
           BlockExplorer.ClickFetchBalance;
           BlockExplorer.IntervalFired]
          BlockExplorer.initial)
     = [].
Proof.
  split; [reflexivity|].
  apply (@browser_never_calls (Samples.answering 5)
           [BlockExplorer.Mount (Some Samples.browser_window) 1%N;
            BlockExplorer.ClickNextPage;
            BlockExplorer.InputAddressBalance (lit "0xabc");
            BlockExplorer.ClickFetchBalance;
            BlockExplorer.IntervalFired]
           BlockExplorer.initial);
    reflexivity.
Defined.

Lemma browser_next_still_pages_witness :
  BlockExplorer.isTauri BlockExplorer.initial = false
  /\ BlockExplorer.offset
       (state_of
          (BlockExplorer.dispatch_all (Samples.answering 5)
             (repeat BlockExplorer.ClickNextPage 3) BlockExplorer.initial))
     = (0 + 10 * 3)%Z.
Proof.
  split; [reflexivity|].
  apply (@browser_next_still_pages (Samples.answering 5) 2 BlockExplorer.initial).
  reflexivity.
Defined.

(* ================================================================== *)
(** ** The balance check *)
(* ================================================================== *)

Section Balance.

Import BlockExplorer ExplorerView.

Local Open Scope string_scope.
Local Open Scope list_scope.
Local Open Scope Z_scope.

Variable backend : Backend.

(** An uninterrupted balance check on an address that is not blank,
    inside Tauri, in terms of how the call settles. *)
Lemma fetchBalance_run_tauri (clock : Z) (s : State) (t : N)
    (o : outcome jsstring) :
  blank (addressBalance s) = false ->
  isTauri s = true ->
  get_account_balance backend (addressBalance s) = Some (t, o) ->
  fetchBalance backend clock s =
    Completed
      match o with
      | Resolved balance =>
          set_balanceResult (Some (balance ++ lit " ETH"))
            (set_balanceError None s)
      | Rejected e => set_balanceError (Some (reason_to_string e)) s
      end
      [Invoke "get_account_balance" [("address", JStr (addressBalance s))]].
Proof.
  intros Hb T E. unfold fetchBalance, uninterrupted.
  rewrite (fetchBalance_start_tauri backend s Hb T), E.
  destruct o as [b|e]; destruct s; reflexivity.
Qed.

(** X12.  The balance check, answered.  With the Check button enabled and
    inside Tauri, [fetchBalance] sends the address exactly as typed
    (surrounding blanks included) in one [get_account_balance] call.
    Answered with a value, it shows that value followed by " ETH" and
    clears the balance error.  Answered with an error, it shows the error
    and keeps the balance shown before, if any.  Either way no other
    variable changes and no spinner is involved. *)
Theorem fetchBalance_settled (clock : Z) (s : State) (t : N)
    (o : outcome jsstring) :
  check_disabled s = false ->
  isTauri s = true ->
  get_account_balance backend (addressBalance s) = Some (t, o) ->
  fetchBalance backend clock s =
    Completed
      match o with
      | Resolved balance =>
          set_balanceResult (Some (balance ++ lit " ETH"))
            (set_balanceError None s)
      | Rejected e => set_balanceError (Some (reason_to_string e)) s
      end
      [Invoke "get_account_balance" [("address", JStr (addressBalance s))]].
Proof.
  intros Hen T E.
  assert (Hb : blank (addressBalance s) = false).
  { unfold check_disabled in Hen. rewrite guard_blank in Hen. exact Hen. }
  apply (fetchBalance_run_tauri clock s Hb T E).
Qed.

(** X13.  The balance check has no timeout.  With the Check button enabled
    and inside Tauri, [fetchBalance] runs to its end exactly when the
    backend settles the call; against a backend that stays silent it waits
    for ever, the balance error cleared and nothing else changed. *)
Theorem fetchBalance_ends_iff_answered (clock : Z) (s : State) :
  check_disabled s = false ->
  isTauri s = true ->
  ((exists s' fx, fetchBalance backend clock s = Completed s' fx)
   <-> get_account_balance backend (addressBalance s) <> None)
  /\ (get_account_balance backend (addressBalance s) = None ->
      fetchBalance backend clock s =
        Waiting (set_balanceError None s)
          [Invoke "get_account_balance" [("address", JStr (addressBalance s))]]).
Proof.
  intros Hen T.
  assert (Hb : blank (addressBalance s) = false).
  { unfold check_disabled in Hen. rewrite guard_blank in Hen. exact Hen. }
  assert (Hsilent : get_account_balance backend (addressBalance s) = None ->
            fetchBalance backend clock s =
              Waiting (set_balanceError None s)
                [Invoke "get_account_balance"
                   [("address", JStr (addressBalance s))]]).
  { intros E. unfold fetchBalance, uninterrupted.
    rewrite (fetchBalance_start_tauri backend s Hb T), E. reflexivity. }
  split; [|exact Hsilent]. split.
  - intros [s' [fx H]] E. rewrite (Hsilent E) in H. discriminate H.
  - intros Hne.
    destruct (get_account_balance backend (addressBalance s)) as [[t o]|] eqn:E;
      [|contradiction].
    rewrite (fetchBalance_run_tauri clock s Hb T E). eexists _, _. reflexivity.
Qed.

(** X14.  One error slot for two lookups.  [fetchTransaction] reports
    through [balanceError], the slot of the balance check: after a failed
    balance check, a transaction lookup made inside Tauri with the Lookup
    button enabled erases the balance error (and shows its made-up record),
    while outside Tauri it replaces the balance error by its own message.
    It never touches the balance shown. *)
Theorem lookups_share_error_slot (e : reason) (s : State) :
  lookup_disabled s = false ->
  let failed_check := state_of (fetchBalance_resume (Rejected e) s) in
  let s' := state_of (fetchTransaction failed_check) in
  balanceError failed_check = Some (reason_to_string e)
  /\ balanceError s'
     = (if isTauri s then None else Some msg_transaction_requires_tauri)
  /\ transactionResult s'
     = (if isTauri s then Some (placeholder_transaction (transactionHash s))
        else transactionResult s)
  /\ balanceResult s' = balanceResult s.
Proof.
  intros Hen. cbv zeta.
  assert (Hb : blank (transactionHash s) = false).
  { unfold lookup_disabled in Hen. rewrite guard_blank in Hen. exact Hen. }
  split; [destruct s; reflexivity|].
  destruct (isTauri s) eqn:T.
  - rewrite fetchTransaction_tauri;
      [destruct s; repeat split | destruct s; exact Hb | destruct s; exact T].
  - rewrite fetchTransaction_browser;
      [destruct s; repeat split | destruct s; exact Hb | destruct s; exact T].
Qed.

End Balance.

Lemma fetchBalance_settled_witness :
  ExplorerView.check_disabled
    (BlockExplorer.set_addressBalance (lit " 0xabc ") Samples.in_tauri) = false
  /\ BlockExplorer.fetchBalance (Samples.answering 5) 0
       (BlockExplorer.set_addressBalance (lit " 0xabc ") Samples.in_tauri)
     = Completed
         (BlockExplorer.set_balanceResult (Some (lit "1.5 ETH"))
            (BlockExplorer.set_balanceError None
               (BlockExplorer.set_addressBalance (lit " 0xabc ")
                  Samples.in_tauri)))
         [Invoke "get_account_balance"
            [("address"%string, JStr (lit " 0xabc "))]].
Proof.
  split; [reflexivity|].
  apply (@fetchBalance_settled (Samples.answering 5) 0
           (BlockExplorer.set_addressBalance (lit " 0xabc ") Samples.in_tauri)
           5%N (Resolved (lit "1.5")));
    reflexivity.
Defined.

Lemma fetchBalance_ends_iff_answered_witness :
  ExplorerView.check_disabled
    (BlockExplorer.set_addressBalance (lit "0xabc") Samples.in_tauri) = false
  /\ BlockExplorer.fetchBalance Samples.silent 0
       (BlockExplorer.set_addressBalance (lit "0xabc") Samples.in_tauri)
     = Waiting
         (BlockExplorer.set_balanceError None
            (BlockExplorer.set_addressBalance (lit "0xabc") Samples.in_tauri))
         [Invoke "get_account_balance"
            [("address"%string, JStr (lit "0xabc"))]].
Proof.
  split; [reflexivity|].
  apply (@fetchBalance_ends_iff_answered Samples.silent 0
           (BlockExplorer.set_addressBalance (lit "0xabc") Samples.in_tauri)
           eq_refl eq_refl).
  reflexivity.
Defined.

Lemma lookups_share_error_slot_witness :
  ExplorerView.lookup_disabled
    (BlockExplorer.set_transactionHash (lit "0xabc") Samples.in_tauri) = false
  /\ BlockExplorer.balanceError
       (state_of
          (BlockExplorer.fetchTransaction
             (state_of
                (BlockExplorer.fetchBalance_resume
                   (Rejected (ReasonString (lit "no node")))
                   (BlockExplorer.set_transactionHash (lit "0xabc")
                      Samples.in_tauri)))))
     = None.
Proof.
  split; [reflexivity|].
  apply (@lookups_share_error_slot (ReasonString (lit "no node"))
           (BlockExplorer.set_transactionHash (lit "0xabc") Samples.in_tauri)
           eq_refl).
Defined.

(* ================================================================== *)
(** ** The all-transactions page *)
(* ================================================================== *)

Section Inspector.

Import AllTransactions InspectorView.

Local Open Scope string_scope.
Local Open Scope list_scope.
Local Open Scope Z_scope.

Variable backend : Backend.

(** X15.  [fetchAllTransactions], settled.  The function sends one
    [get_all_transactions] call.  Answered with a list, it stores the
    list, leaves the error cleared, and raises the information toast
    exactly when the list is empty.  Answered with an error, it keeps the
    transactions shown before, logs the error to the console, and shows one
    and the same message in the error banner and in the error toast.
    Either way [isLoading] ends false. *)
Theorem fetchAllTransactions_settled (clock : Z) (s : State) (t : N)
    (o : outcome (list json)) :
  get_all_transactions backend = Some (t, o) ->
  fetchAllTransactions backend clock s =
    match o with
    | Resolved txs =>
        Completed
          (set_isLoading false (set_transactions txs (set_error None s)))
          (Invoke "get_all_transactions" []
           :: match txs with
              | [] => [ToastInfo (lit "No transactions found on the blockchain.")]
              | _ :: _ => []
              end)
    | Rejected e =>
        Completed
          (set_isLoading false
             (set_error
                (Some (lit "Failed to fetch transactions: " ++ reason_to_string e))
                s))
          [Invoke "get_all_transactions" [];
           ConsoleError (lit "Failed to fetch all transactions:") e;
           ToastError
             (Some (lit "Failed to fetch transactions: " ++ reason_to_string e))]
    end.
Proof.
  intros E. unfold fetchAllTransactions, uninterrupted.
  change (fetchAllTransactions_start backend s)
    with (Some (get_all_transactions backend),
          set_error None (set_isLoading true s),
          [Invoke "get_all_transactions" []]).
  rewrite E. destruct o as [txs|e].
  - destruct txs; destruct s; reflexivity.
  - destruct s; reflexivity.
Qed.

(** X16.  What the page shows around a fetch.  While [fetchAllTransactions]
    waits, the button is disabled, and a page with no transactions shows
    neither the list nor the empty note.  Once it has run to its end, the
    button is enabled again and exactly one of the list and the empty note
    is shown. *)
Theorem inspector_view_around_fetch (clock : Z) (s : State) :
  match fetchAllTransactions backend clock s with
  | Waiting s' _ =>
      fetch_disabled s' = true
      /\ shows_empty_note s' = false
      /\ shows_list s' = shows_list s
  | Completed s' _ =>
      fetch_disabled s' = false
      /\ shows_empty_note s' = negb (shows_list s')
  end.
Proof.
  unfold fetchAllTransactions, uninterrupted.
  change (fetchAllTransactions_start backend s)
    with (Some (get_all_transactions backend),
          set_error None (set_isLoading true s),
          [Invoke "get_all_transactions" []]).
  destruct (get_all_transactions backend) as [[t o]|].
  - destruct o as [txs|e].
    + destruct txs; destruct s; cbn; unfold shows_empty_note, shows_list;
        cbn; split; try reflexivity; rewrite andb_true_r; reflexivity.
    + destruct s as [c txs l er]; cbn; unfold shows_empty_note, shows_list;
        cbn; split; try reflexivity; rewrite andb_true_r; reflexivity.
  - destruct s as [c txs l er]. cbn. unfold shows_empty_note, shows_list. cbn.
    repeat split. apply andb_false_r.
Qed.

(** One step of the running page keeps the count of calls in flight in
    step with [isLoading]. *)
Lemma ui_step_single_flight (ev : event) (r r' : Runtime) :
  in_flight r = (if isLoading (vars r) then 1 else 0)%nat ->
  ui_step backend ev r = Some r' ->
  in_flight r' = (if isLoading (vars r') then 1 else 0)%nat.
Proof.
  intros Inv Hstep. destruct r as [s n]. simpl in Inv.
  destruct ev; simpl in Hstep.
  - injection Hstep as <-. simpl. exact Inv.
  - unfold fetch_disabled in Hstep. simpl in Hstep.
    destruct (isLoading s) eqn:L; [discriminate Hstep|].
    injection Hstep as <-. subst n. destruct s; reflexivity.
  - destruct n as [|n]; [discriminate Hstep|].
    injection Hstep as <-.
    destruct (isLoading s) eqn:L; [|discriminate Inv].
    injection Inv as ->.
    destruct o as [txs|e]; [destruct txs|]; destruct s; reflexivity.
Qed.

(** X17.  One call at a time.  On the running all-transactions page, where
    the button cannot be clicked while disabled and a reply needs a call in
    flight, the number of [get_all_transactions] calls in flight is 1 when
    [isLoading] is true and 0 when it is false: never two at once, and the
    spinner state is exact. *)
Theorem inspector_single_flight (evs : list event) (r : Runtime) :
  ui_run backend evs started = Some r ->
  in_flight r = (if isLoading (vars r) then 1 else 0)%nat.
Proof.
  assert (G : forall evs r0 r1,
             in_flight r0 = (if isLoading (vars r0) then 1 else 0)%nat ->
             ui_run backend evs r0 = Some r1 ->
             in_flight r1 = (if isLoading (vars r1) then 1 else 0)%nat).
  { clear. induction evs as [|ev rest IH]; intros r0 r1 Inv Hrun.
    - simpl in Hrun. injection Hrun as <-. exact Inv.
    - simpl in Hrun. destruct (ui_step backend ev r0) as [r'|] eqn:Hs;
        [|discriminate Hrun].
      eapply IH; [|exact Hrun].
      eapply ui_step_single_flight; eassumption. }
  intros Hrun. eapply G; [|exact Hrun]. reflexivity.
Qed.

End Inspector.

Lemma fetchAllTransactions_settled_witness :
  get_all_transactions (Samples.rejecting 5)
    = Some (5%N, Rejected (ReasonString (lit "no node")))
  /\ AllTransactions.fetchAllTransactions (Samples.rejecting 5) 0
       AllTransactions.initial
     = Completed
         (AllTransactions.set_isLoading false
            (AllTransactions.set_error
               (Some (lit "Failed to fetch transactions: no node"))
               AllTransactions.initial))
         [Invoke "get_all_transactions" [];
          ConsoleError (lit "Failed to fetch all transactions:")
            (ReasonString (lit "no node"));
          ToastError (Some (lit "Failed to fetch transactions: no node"))].
Proof.
  split; [reflexivity|].
  apply (@fetchAllTransactions_settled (Samples.rejecting 5) 0
           AllTransactions.initial 5%N
           (Rejected (ReasonString (lit "no node"))) eq_refl).
Defined.

Lemma inspector_single_flight_witness :
  InspectorView.ui_run (Samples.answering 5)
    [AllTransactions.Mount; AllTransactions.ClickFetchAll]
    InspectorView.started
  = Some {| InspectorView.vars :=
              AllTransactions.set_error None
                (AllTransactions.set_isLoading true AllTransactions.initial);
            InspectorView.in_flight := 1 |}
  /\ InspectorView.ui_run (Samples.answering 5)
       [AllTransactions.ClickFetchAll; AllTransactions.ClickFetchAll]
       InspectorView.started
     = None
  /\ InspectorView.in_flight
       {| InspectorView.vars :=
            AllTransactions.set_error None
              (AllTransactions.set_isLoading true AllTransactions.initial);
          InspectorView.in_flight := 1 |}
     = 1%nat.
Proof.
  split; [reflexivity|]. split; [reflexivity|].
  apply (@inspector_single_flight (Samples.answering 5)
           [AllTransactions.Mount; AllTransactions.ClickFetchAll]).
  reflexivity.
Defined.
